(** * w3af_api_client.connection: the REST session and its request dispatcher

    A shallow embedding of [src/w3af_api_client/connection.py]: the
    [Connection] class with [send_request], [can_access_api],
    [get_version], [get_scans], [set_verbose] and [configure_requests].

    Python values that travel through the client are JSON-decoded values;
    exceptions are an inductive type; the [requests] session, the process
    wide [logging] configuration and the history of calls sent to the
    remote service form an explicit world that every operation threads. *)

From Stdlib Require Import ZArith List String Ascii Bool Lia.
From Stdlib Require Import Strings.Byte DecimalString SpecFloat.
Import ListNotations.

#[local] Set Warnings "-register-all".
Local Open Scope string_scope.
Local Open Scope Z_scope.

(** ** Text helpers *)

Module Text.

(** The double quote, the line feed, the backslash and the apostrophe,
    which Python spells with escapes inside its literals. *)
Definition dq_char : ascii := "034"%char.
Definition bs_char : ascii := "092"%char.
Definition sq_char : ascii := "039"%char.
Definition dq : string := String dq_char EmptyString.
Definition nl : string := String "010"%char EmptyString.

(** [fmt % args] restricted to the [%s] directive, the only one the
    client uses.  Every call site passes as many arguments as the format
    has directives (CPython raises TypeError otherwise); a directive
    left without argument is kept as it is. *)
Fixpoint py_format (fmt : string) (args : list string) : string :=
  match fmt with
  | String "%" (String "s" rest) =>
      match args with
      | a :: args' => a ++ py_format rest args'
      | [] => String "%" (String "s" (py_format rest []))
      end
  | String c rest => String c (py_format rest args)
  | EmptyString => EmptyString
  end.

(** The number of [%s] directives of a format. *)
Fixpoint directives (fmt : string) : nat :=
  match fmt with
  | String "%" (String "s" rest) => S (directives rest)
  | String _ rest => directives rest
  | EmptyString => 0%nat
  end.

(** [str(n)] of a Python int. *)
Definition str_int (n : Z) : string := NilZero.string_of_int (Z.to_int n).

(** [needle in hay] on Python strings. *)
Fixpoint str_in (needle hay : string) : bool :=
  prefix needle hay ||
  match hay with
  | EmptyString => false
  | String _ hay' => str_in needle hay'
  end.

(** The same, as a proposition: [hay] is [pre ++ needle ++ post]. *)
Definition occurs_in (needle hay : string) : Prop :=
  exists pre post, hay = pre ++ needle ++ post.

(** *** [str()] of a [bytes] object

    Under Python 2 [bytes] is [str] and [%s] inserts the bytes as they
    are.  Under Python 3 [%s] inserts the literal form [b'...'] computed
    by CPython's [PyBytes_Repr]: the delimiter is the apostrophe unless
    the bytes hold an apostrophe and no double quote; the delimiter and
    the backslash are escaped, tab, line feed and carriage return are
    written [\t], [\n], [\r], every other byte outside 0x20..0x7e is
    written [\xhh], the rest is copied. *)
Definition hex_digit (n : N) : ascii :=
  nth (N.to_nat n) (list_ascii_of_string "0123456789abcdef") "0"%char.

Definition repr_byte (quote c : ascii) : string :=
  let n := N_of_ascii c in
  if (Ascii.eqb c quote || Ascii.eqb c bs_char)%bool
  then String bs_char (String c EmptyString)
  else if (n =? 9)%N then String bs_char "t"
  else if (n =? 10)%N then String bs_char "n"
  else if (n =? 13)%N then String bs_char "r"
  else if ((n <? 32) || (127 <=? n))%N%bool
  then String bs_char
         (String "x" (String (hex_digit (n / 16)) (String (hex_digit (n mod 16)) EmptyString)))
  else String c EmptyString.

Definition bytes_repr (b : list byte) : string :=
  let cs := map ascii_of_byte b in
  let quote :=
    if (existsb (Ascii.eqb sq_char) cs && negb (existsb (Ascii.eqb dq_char) cs))%bool
    then dq_char else sq_char in
  String "b" (String quote
    (String.concat EmptyString (map (repr_byte quote) cs) ++ String quote EmptyString)).

Definition bytes_str (py3 : bool) (b : list byte) : string :=
  if py3 then bytes_repr b else string_of_list_byte b.

(** A byte that the Python 3 literal form copies whatever the delimiter:
    printable ASCII other than the apostrophe and the backslash. *)
Definition plain_byte (x : byte) : bool :=
  let c := ascii_of_byte x in
  let n := N_of_ascii c in
  ((32 <=? n) && (n <? 127))%N && negb (Ascii.eqb c sq_char) && negb (Ascii.eqb c bs_char).

End Text.
Import Text.

(** ** JSON-decoded values

    What [response.json()] returns and what the caller passes as
    [json_data]: [None], [bool], [int], [float], [str], [list] and [dict].
    A [dict] is kept as its items in insertion order, the order
    [json.dumps] writes them in; its keys are pairwise distinct. *)

Inductive json : Type :=
| JNull
| JBool (b : bool)
| JInt (n : Z)
| JFloat (x : spec_float)
| JStr (s : string)
| JList (xs : list json)
| JDict (items : list (string * json)).

(** [d[key]] on the items of a dict. *)
Fixpoint dict_lookup (key : string) (items : list (string * json)) : option json :=
  match items with
  | [] => None
  | (k, v) :: items' => if (k =? key)%string then Some v else dict_lookup key items'
  end.

(** [type(v).__name__], as the interpreter's messages quote it. *)
Definition type_name (v : json) : string :=
  match v with
  | JNull => "NoneType"
  | JBool _ => "bool"
  | JInt _ => "int"
  | JFloat _ => "float"
  | JStr _ => "str"
  | JList _ => "list"
  | JDict _ => "dict"
  end.

(** ** Exceptions *)

(** Modelled from the spec: the classes of [utils/exceptions.py], which
    is missing from the sources; the spec gives four distinguishable
    kinds, each built from one argument: the generic [APIException] and
    the three kinds the status codes 400, 403 and 404 map to.  The
    remaining constructors are the built-in exceptions the interpreter
    raises in this module, with the wording of CPython 3, and the
    exceptions of the [requests] transport, which carry their class name
    and their [str()]. *)

Inductive exn : Type :=
| APIException (arg : json)
| BadRequestException (arg : json)
| ForbiddenException (arg : json)
| NotFoundException (arg : json)
| ValueError (msg : string)
| AttributeError (msg : string)
| TypeError (msg : string)
| KeyError (key : string)
| RequestException (cls : string) (descr : string).

Inductive outcome (A : Type) : Type :=
| Returned (a : A)
| Raised (e : exn).
Arguments Returned {A} a.
Arguments Raised {A} e.

(** ** Operations of the interpreter on decoded values *)

(** [obj.get(key, None)]. *)
Definition py_get (obj : json) (key : string) : outcome json :=
  match obj with
  | JDict items =>
      Returned (match dict_lookup key items with Some v => v | None => JNull end)
  | _ => Raised (AttributeError ("'" ++ type_name obj ++ "' object has no attribute 'get'"))
  end.

(** [s == v] for a string [s]. *)
Definition py_eq_str (s : string) (v : json) : bool :=
  match v with
  | JStr t => (s =? t)%string
  | _ => false
  end.

(** [needle in obj] for a string [needle]: a key of a dict, an element of
    a list, a substring of a string; the other values are not containers. *)
Definition py_contains (needle : string) (obj : json) : outcome bool :=
  match obj with
  | JDict items => Returned (existsb (fun kv => (fst kv =? needle)%string) items)
  | JList xs => Returned (existsb (py_eq_str needle) xs)
  | JStr s => Returned (str_in needle s)
  | _ => Raised (TypeError ("argument of type '" ++ type_name obj ++ "' is not iterable"))
  end.

(** The elements [for x in obj] visits: the elements of a list, the keys
    of a dict, the one-character strings of a string. *)
Definition py_iter (obj : json) : outcome (list json) :=
  match obj with
  | JList xs => Returned xs
  | JDict items => Returned (map (fun kv => JStr (fst kv)) items)
  | JStr s => Returned (map (fun c => JStr (String c EmptyString)) (list_ascii_of_string s))
  | _ => Raised (TypeError ("'" ++ type_name obj ++ "' object is not iterable"))
  end.

(** [obj[key]] for a string [key]. *)
Definition py_getitem (obj : json) (key : string) : outcome json :=
  match obj with
  | JDict items =>
      match dict_lookup key items with
      | Some v => Returned v
      | None => Raised (KeyError key)
      end
  | JList _ => Raised (TypeError "list indices must be integers or slices, not str")
  | JStr _ => Raised (TypeError "string indices must be integers")
  | _ => Raised (TypeError ("'" ++ type_name obj ++ "' object is not subscriptable"))
  end.

(** ** The world: transport, logging, history *)

Inductive log_level : Type := DEBUG | WARNING | CRITICAL.

(** One call handed to the [requests] session. *)
Record http_call : Type := {
  verb : string;
  url : string;
  data : option string;
  call_timeout : Z
}.

(** [requests.Session]: the attributes [configure_requests] writes. *)
Record Session : Type := {
  verify : bool;
  headers : list (string * string)
}.

(** [requests.Response]: the attributes the client reads.  [json_body]
    is what [response.json()] yields, [None] when it raises ValueError
    because [content] is not a JSON text. *)
Record Response : Type := {
  status_code : Z;
  content : list byte;
  json_body : option json
}.

Record Connection : Type := {
  api_url : string;
  session : Session;
  timeout : Z
}.

(** Modelled from the spec: the class [Scan] of [scan.py], which is
    missing from the sources; a handle holds the session it came from, an
    identifier and the last known status, as
    [Scan(conn, scan_id=..., status=...)] receives them. *)
Record Scan : Type := {
  scan_conn : Connection;
  scan_id : json;
  scan_status : json
}.

(** State outside the objects: the calls made so far, oldest first, the
    module level [api_logger] with its handlers, the loggers of the
    network stack, [HTTPConnection.debuglevel], and the lines written to
    the diagnostic stream. *)
Record World : Type := {
  calls : list http_call;
  api_logger_level : log_level;
  api_logger_handlers : list log_level;
  urllib3_log_level : log_level;
  requests_log_level : log_level;
  debuglevel : Z;
  emitted : list string
}.

Definition M (A : Type) : Type := World -> outcome A * World.

Definition ret {A} (a : A) : M A := fun w => (Returned a, w).
Definition raise {A} (e : exn) : M A := fun w => (Raised e, w).
Definition lift {A} (r : outcome A) : M A := fun w => (r, w).
Definition bind {A B} (c : M A) (k : A -> M B) : M B :=
  fun w =>
    match c w with
    | (Returned a, w') => k a w'
    | (Raised e, w') => (Raised e, w')
    end.

(** [try: body / except Exception as e: handler / else: orelse]: the
    handler covers [body] only. *)
Definition try_except_else {A B} (body : M A) (handler : exn -> M B) (orelse : A -> M B)
  : M B :=
  fun w =>
    match body w with
    | (Returned a, w') => orelse a w'
    | (Raised e, w') => handler e w'
    end.

Declare Scope client_scope.
Delimit Scope client_scope with client.
Notation "x <- c ;; k" := (bind c (fun x => k))
  (at level 61, c at next level, right associativity) : client_scope.
Notation "c ;;; k" := (bind c (fun _ => k))
  (at level 61, right associativity) : client_scope.
Local Open Scope client_scope.

(** ** A stub service

    Concrete collaborators to run the client on: a serializer for the
    fragment of JSON the examples use, a join that appends the path to a
    base without trailing slash, and remote ends that give one fixed
    answer. *)

Module Stub.

Fixpoint dumps (v : json) : string :=
  match v with
  | JNull => "null"
  | JBool true => "true"
  | JBool false => "false"
  | JInt n => str_int n
  | JFloat _ => "NaN"
  | JStr s => dq ++ s ++ dq
  | JList xs =>
      "[" ++ (fix elements (l : list json) : string :=
                match l with
                | [] => EmptyString
                | [x] => dumps x
                | x :: l' => dumps x ++ ", " ++ elements l'
                end) xs ++ "]"
  | JDict items =>
      "{" ++ (fix members (l : list (string * json)) : string :=
                match l with
                | [] => EmptyString
                | [(k, x)] => dq ++ k ++ dq ++ ": " ++ dumps x
                | (k, x) :: l' => dq ++ k ++ dq ++ ": " ++ dumps x ++ ", " ++ members l'
                end) items ++ "}"
  end.

Definition json_dumps (indent : option nat) (v : json) : string := dumps v.
Definition py_repr (v : json) : string := dumps v.
Definition urljoin (base path : string) : string := base ++ path.
Definition ISSUE_URL : string := "https://github.com/andresriancho/w3af/issues/new".
Definition VERSION : string := "3.0.1".

(** A response whose body is the text of [body]. *)
Definition reply (code : Z) (body : json) : Response :=
  {| status_code := code;
     content := list_byte_of_string (dumps body);
     json_body := Some body |}.

(** A response whose body is [text], which is not JSON. *)
Definition garbage (code : Z) (text : string) : Response :=
  {| status_code := code;
     content := list_byte_of_string text;
     json_body := None |}.

Definition always (r : outcome Response)
  : Session -> list http_call -> http_call -> outcome Response :=
  fun _ _ _ => r.

Definition refused : outcome Response :=
  Raised (RequestException "ConnectionError" "Connection refused").

Definition conn : Connection :=
  {| api_url := "http://127.0.0.1:5000";
     session := {| verify := true;
                   headers := [ ("Content-Type", "application/json");
                                ("Accept", "application/json");
                                ("User-Agent", "REST API Client 3.0.1") ] |};
     timeout := 5 |}.

(** The process before any [Connection] is built. *)
Definition fresh : World :=
  {| calls := [];
     api_logger_level := WARNING;
     api_logger_handlers := [];
     urllib3_log_level := WARNING;
     requests_log_level := WARNING;
     debuglevel := 0;
     emitted := [] |}.

(** The process after one verbose [Connection]. *)
Definition chatty : World :=
  {| calls := [];
     api_logger_level := DEBUG;
     api_logger_handlers := [DEBUG];
     urllib3_log_level := DEBUG;
     requests_log_level := DEBUG;
     debuglevel := 1;
     emitted := [] |}.

End Stub.

(** ** The client *)

(** [API_EXCEPTIONS]: the status codes with an exception class of their
    own, in the order of the literal. *)
Definition API_EXCEPTIONS : list (Z * (json -> exn)) :=
  [ (400, BadRequestException);
    (403, ForbiddenException);
    (404, NotFoundException) ].

(** [key in d] and [d.get(key)] on a dict with integer keys. *)
Definition int_dict_mem {V} (key : Z) (d : list (Z * V)) : bool :=
  existsb (fun kv => fst kv =? key) d.

Fixpoint int_dict_get {V} (key : Z) (d : list (Z * V)) : option V :=
  match d with
  | [] => None
  | (k, v) :: d' => if k =? key then Some v else int_dict_get key d'
  end.

Section Client.

(** [six.PY3]. *)
Variable PY3 : bool.
(** [utils.constants.ISSUE_URL] and the package's [__VERSION__]. *)
Variable ISSUE_URL : string.
Variable VERSION : string.
(** [requests.compat.urljoin], [json.dumps(value, indent=...)], and
    [repr] of a decoded value that is not a string.  [urljoin] stands for
    the join of a base and a path it accepts; on strings it refuses, such
    as a host with an unclosed bracket, the library raises ValueError at
    the first line of [send_request], before any call, a run this world
    does not have: the statements are about the bases and paths it
    joins. *)
Variable urljoin : string -> string -> string.
Variable json_dumps : option nat -> json -> string.
Variable py_repr : json -> string.
(** The remote end as the session reaches it: from the session, the
    calls already made and the call at hand, a response or the
    exception the transport raises. *)
Variable remote : Session -> list http_call -> http_call -> outcome Response.

(** [str(v)] of a decoded value. *)
Definition py_str (v : json) : string :=
  match v with
  | JStr s => s
  | _ => py_repr v
  end.

(** [str(e)]: of the argument for the client's kinds, the message for
    the built-in ones, the quoted key for KeyError. *)
Definition exc_str (e : exn) : string :=
  match e with
  | APIException arg | BadRequestException arg
  | ForbiddenException arg | NotFoundException arg => py_str arg
  | ValueError msg | AttributeError msg | TypeError msg => msg
  | KeyError key => "'" ++ key ++ "'"
  | RequestException _ descr => descr
  end.

(** [self.session.get/delete/post(...)]: the call reaches the transport
    and joins the history whether it returns or raises. *)
Definition session_request (s : Session) (c : http_call) : M Response :=
  fun w =>
    (remote s (calls w) c,
     {| calls := (calls w ++ [c])%list;
        api_logger_level := api_logger_level w;
        api_logger_handlers := api_logger_handlers w;
        urllib3_log_level := urllib3_log_level w;
        requests_log_level := requests_log_level w;
        debuglevel := debuglevel w;
        emitted := emitted w |}).

Definition session_get (s : Session) (full_url : string) (t : Z) : M Response :=
  session_request s {| verb := "GET"; url := full_url; data := None; call_timeout := t |}.

Definition session_delete (s : Session) (full_url : string) (t : Z) : M Response :=
  session_request s {| verb := "DELETE"; url := full_url; data := None; call_timeout := t |}.

Definition session_post (s : Session) (full_url : string) (d : string) (t : Z)
  : M Response :=
  session_request s {| verb := "POST"; url := full_url; data := Some d; call_timeout := t |}.

(** [api_logger.debug(msg)]: dropped unless the logger is at DEBUG,
    then written once by each handler that is at DEBUG. *)
Definition api_logger_debug (msg : string) : M unit :=
  fun w =>
    (Returned tt,
     match api_logger_level w with
     | DEBUG =>
         {| calls := calls w;
            api_logger_level := api_logger_level w;
            api_logger_handlers := api_logger_handlers w;
            urllib3_log_level := urllib3_log_level w;
            requests_log_level := requests_log_level w;
            debuglevel := debuglevel w;
            emitted :=
              (emitted w ++
               map (fun _ => msg)
                  (filter (fun h => match h with DEBUG => true | _ => false end)
                          (api_logger_handlers w)))%list |}
     | _ => w
     end).

(** [Connection.send_request(self, path, json_data=None, method='GET')]. *)
Definition send_request (self : Connection) (path : string) (json_data : json)
    (method : string) : M (Z * json) :=
  let full_url := urljoin (api_url self) path in
  response <-
    (if (method =? "GET")%string then
       session_get (session self) full_url (timeout self)
     else if (method =? "DELETE")%string then
       session_delete (session self) full_url (timeout self)
     else if (method =? "POST")%string then
       let data := json_dumps None json_data in
       session_post (session self) full_url data (timeout self)
     else
       raise (ValueError (py_format ("Invalid HTTP method: " ++ dq ++ "%s" ++ dq) [method]))) ;;
  json_data <-
    match json_body response with
    | Some j => ret j
    | None =>
        let msg := "REST API service did not return JSON, if this issue"
                   ++ " persists please create an issue in the w3af framework"
                   ++ " repository at %s. The response body starts with: "
                   ++ dq ++ "%s" ++ dq in
        raise (APIException (JStr
          (py_format msg [ISSUE_URL; bytes_str PY3 (firstn 20 (content response))])))
    end ;;
  let pretty_json := json_dumps (Some 4%nat) json_data in
  let msg := "Received %s HTTP response from the wire:" ++ nl ++ "%s" in
  api_logger_debug (py_format msg [str_int (status_code response); pretty_json]) ;;;
  if int_dict_mem (status_code response) API_EXCEPTIONS then
    error <- lift (py_get json_data "message") ;;
    match int_dict_get (status_code response) API_EXCEPTIONS with
    | None => raise (TypeError "'NoneType' object is not callable")
    | Some exception_klass =>
        match error with
        | JNull =>
            let msg := "REST API service did not return the expected "
                       ++ dq ++ "message" ++ dq
                       ++ " attribute for the %s response. Please create a new"
                       ++ " issue in the w3af framework repository at %s with"
                       ++ " this JSON data:" ++ nl ++ nl ++ "%s" in
            let dump := json_dumps (Some 4%nat) json_data in
            raise (APIException (JStr
              (py_format msg [str_int (status_code response); ISSUE_URL; dump])))
        | _ => raise (exception_klass error)
        end
    end
  else
    ret (status_code response, json_data).

(** [Connection.get_version]. *)
Definition get_version (self : Connection) : M json :=
  r <- send_request self "/version" JNull "GET" ;;
  ret (snd r).

(** [Connection.can_access_api]. *)
Definition can_access_api (self : Connection) : M bool :=
  try_except_else (get_version self)
    (fun e =>
       let msg := "An exception was raised when connecting to REST API: "
                  ++ dq ++ "%s" ++ dq in
       raise (APIException (JStr (py_format msg [exc_str e]))))
    (fun version_dict =>
       found <- lift (py_contains "version" version_dict) ;;
       if found then ret true
       else raise (APIException
                     (JStr "Unexpected HTTP response when connecting to REST API"))).

(** [Connection.set_verbose]. *)
Definition set_verbose (verbose : bool) : M unit :=
  fun w =>
    let level := if verbose then DEBUG else CRITICAL in
    (Returned tt,
     {| calls := calls w;
        api_logger_level := level;
        api_logger_handlers := (api_logger_handlers w ++ [level])%list;
        urllib3_log_level := level;
        requests_log_level := level;
        debuglevel := if verbose then 1 else 0;
        emitted := emitted w |}).

(** [Connection.configure_requests]: the session it stores, with the
    entries it writes over the defaults of [requests]. *)
Definition configure_requests (verify_flag : bool) : Session :=
  {| verify := verify_flag;
     headers := [ ("Content-Type", "application/json");
                  ("Accept", "application/json");
                  ("User-Agent", py_format "REST API Client %s" [VERSION]) ] |}.

(** [Connection(api_url, verbose=False, timeout=5, verify=True)]: the
    object reaches the caller only when [__init__] returns. *)
Definition Connection_init (url0 : string) (verbose : bool) (timeout0 : Z)
    (verify_flag : bool) : M Connection :=
  set_verbose verbose ;;;
  let self := {| api_url := url0;
                 session := configure_requests verify_flag;
                 timeout := timeout0 |} in
  can_access_api self ;;;
  ret self.

(** The loop of [get_scans]: one handle appended per descriptor, the
    first failing subscript ends it. *)
Fixpoint build_scans (self : Connection) (scans : list json)
    (scan_instances : list Scan) : outcome (list Scan) :=
  match scans with
  | [] => Returned scan_instances
  | scan_json :: rest =>
      match py_getitem scan_json "id" with
      | Raised e => Raised e
      | Returned id0 =>
          match py_getitem scan_json "status" with
          | Raised e => Raised e
          | Returned status0 =>
              let scan := {| scan_conn := self; scan_id := id0; scan_status := status0 |} in
              build_scans self rest (scan_instances ++ [scan])%list
          end
      end
  end.

(** [Connection.get_scans]. *)
Definition get_scans (self : Connection) : M (list Scan) :=
  r <- send_request self "/scans/" JNull "GET" ;;
  let code := fst r in
  let data := snd r in
  if negb (code =? 200) then
    raise (APIException
             (JStr (py_format "Failed to retrieve scans. Unexpected code %s" [str_int code])))
  else
    scans <- lift (py_get data "items") ;;
    match scans with
    | JNull =>
        raise (APIException
                 (JStr ("Failed to retrieve scans, no " ++ dq ++ "items" ++ dq ++ " in JSON.")))
    | _ =>
        xs <- lift (py_iter scans) ;;
        lift (build_scans self xs [])
    end.

(** *** Vocabulary of the statements *)

(** The three values of [method] that reach the transport. *)
Definition supported (method : string) : Prop :=
  method = "GET" \/ method = "DELETE" \/ method = "POST".

(** The call [send_request] hands to the session for a supported
    method: a payload goes with POST only. *)
Definition issued_call (self : Connection) (path : string) (json_data : json)
    (method : string) : http_call :=
  {| verb := method;
     url := urljoin (api_url self) path;
     data := if (method =? "POST")%string
             then Some (json_dumps None json_data) else None;
     call_timeout := timeout self |}.

(** What the remote end answers to that call in world [w]. *)
Definition answer (self : Connection) (path : string) (json_data : json)
    (method : string) (w : World) : outcome Response :=
  remote (session self) (calls w) (issued_call self path json_data method).

(** [code in API_EXCEPTIONS]. *)
Definition mapped (code : Z) : bool := int_dict_mem code API_EXCEPTIONS.

Definition is_generic (e : exn) : Prop := exists arg, e = APIException arg.

(** The descriptor [d] of a listing is an object whose [id] and [status]
    are the ones the handle [h] of session [self] carries. *)
Definition describes (self : Connection) (d : json) (h : Scan) : Prop :=
  exists fields,
    d = JDict fields /\
    dict_lookup "id" fields = Some (scan_id h) /\
    dict_lookup "status" fields = Some (scan_status h) /\
    scan_conn h = self.

(** The call of the handshake and what the remote end answers to it. *)
Definition version_call (url0 : string) (timeout0 : Z) : http_call :=
  {| verb := "GET"; url := urljoin url0 "/version"; data := None;
     call_timeout := timeout0 |}.

Definition handshake_reply (url0 : string) (timeout0 : Z) (verify_flag : bool)
    (w : World) : outcome Response :=
  remote (configure_requests verify_flag) (calls w) (version_call url0 timeout0).

(** The decoded values [in] accepts on its right: dict, list and str. *)
Definition container (v : json) : Prop :=
  match v with
  | JDict _ | JList _ | JStr _ => True
  | _ => False
  end.

(** The message [can_access_api] raises around the exception [e]. *)
Definition connect_message (e : exn) : string :=
  py_format
    ("An exception was raised when connecting to REST API: " ++ dq ++ "%s" ++ dq)
    [exc_str e].

(** The message raised for a body that is not JSON. *)
Definition not_json_message (response : Response) : string :=
  py_format
    ("REST API service did not return JSON, if this issue"
     ++ " persists please create an issue in the w3af framework"
     ++ " repository at %s. The response body starts with: "
     ++ dq ++ "%s" ++ dq)
    [ISSUE_URL; bytes_str PY3 (firstn 20 (content response))].

(** The message raised for a mapped status without [message]. *)
Definition no_message_message (response : Response) (body : json) : string :=
  py_format
    ("REST API service did not return the expected "
     ++ dq ++ "message" ++ dq
     ++ " attribute for the %s response. Please create a new"
     ++ " issue in the w3af framework repository at %s with"
     ++ " this JSON data:" ++ nl ++ nl ++ "%s")
    [str_int (status_code response); ISSUE_URL; json_dumps (Some 4%nat) body].

(** [supported], as a test. *)
Definition supportedb (method : string) : bool :=
  ((method =? "GET") || (method =? "DELETE") || (method =? "POST"))%string.

(** The line [send_request] hands to [api_logger.debug] once the body
    is decoded. *)
Definition received_message (response : Response) (body : json) : string :=
  py_format
    ("Received %s HTTP response from the wire:" ++ nl ++ "%s")
    [str_int (status_code response); json_dumps (Some 4%nat) body].

(** The call of the listing. *)
Definition scans_call (self : Connection) : http_call :=
  {| verb := "GET"; url := urljoin (api_url self) "/scans/"; data := None;
     call_timeout := timeout self |}.

(** The handlers of [api_logger] that let a DEBUG record through. *)
Definition is_debug (h : log_level) : bool :=
  match h with
  | DEBUG => true
  | _ => false
  end.

Definition debug_handlers (w : World) : nat :=
  List.length (filter is_debug (api_logger_handlers w)).

(** Two worlds with the same logging configuration: levels, handlers and
    [HTTPConnection.debuglevel]. *)
Definition same_logging (w w' : World) : Prop :=
  api_logger_level w' = api_logger_level w /\
  api_logger_handlers w' = api_logger_handlers w /\
  urllib3_log_level w' = urllib3_log_level w /\
  requests_log_level w' = requests_log_level w /\
  debuglevel w' = debuglevel w.

(** What [send_request] raises out of a decoded body under a mapped
    status, in the order of the source: the field is read first, then the
    class is looked up. *)
Definition mapped_outcome (response : Response) (body : json) : outcome (Z * json) :=
  match py_get body "message" with
  | Raised e => Raised e
  | Returned error =>
      match int_dict_get (status_code response) API_EXCEPTIONS with
      | None => Raised (TypeError "'NoneType' object is not callable")
      | Some exception_klass =>
          match error with
          | JNull => Raised (APIException (JStr (no_message_message response body)))
          | _ => Raised (exception_klass error)
          end
      end
  end.

(** ** Facts *)

Lemma mapped_cases code :
  mapped code = true <-> code = 400 \/ code = 403 \/ code = 404.
Proof.
  unfold mapped, int_dict_mem, API_EXCEPTIONS. cbn [existsb fst].
  rewrite !orb_true_iff, !Z.eqb_eq. intuition (auto; discriminate).
Qed.

Lemma mapped_class code :
  mapped code = true ->
  exists klass,
    int_dict_get code API_EXCEPTIONS = Some klass /\
    (code = 400 /\ klass = BadRequestException \/
     code = 403 /\ klass = ForbiddenException \/
     code = 404 /\ klass = NotFoundException).
Proof.
  intros H. apply mapped_cases in H.
  destruct H as [-> | [-> | ->]]; cbn; eexists; split; eauto 6.
Qed.

Ltac dispatch Hm :=
  unfold send_request, answer, issued_call, bind, session_get, session_delete,
    session_post, session_request in *;
  destruct Hm as [-> | [-> | ->]]; cbn [String.eqb Ascii.eqb Bool.eqb] in *.

(** A transport exception leaves [send_request] as it came. *)
Lemma send_request_transport_raises self path jd m w e :
  supported m ->
  answer self path jd m w = Raised e ->
  exists w',
    send_request self path jd m w = (Raised e, w') /\
    calls w' = (calls w ++ [issued_call self path jd m])%list.
Proof.
  intros Hm Ha. dispatch Hm; rewrite Ha; eexists; split; reflexivity.
Qed.

Lemma send_request_unsupported self path jd m w :
  ~ supported m ->
  send_request self path jd m w =
  (Raised (ValueError ("Invalid HTTP method: " ++ dq ++ m ++ dq)), w).
Proof.
  intros Hm. unfold send_request, bind.
  destruct (String.eqb_spec m "GET") as [-> | _];
    [exfalso; apply Hm; red; auto |].
  destruct (String.eqb_spec m "DELETE") as [-> | _];
    [exfalso; apply Hm; red; auto |].
  destruct (String.eqb_spec m "POST") as [-> | _];
    [exfalso; apply Hm; red; auto |].
  reflexivity.
Qed.

Lemma send_request_not_json self path jd m w response :
  supported m ->
  answer self path jd m w = Returned response ->
  json_body response = None ->
  exists w',
    send_request self path jd m w =
      (Raised (APIException (JStr (not_json_message response))), w') /\
    calls w' = (calls w ++ [issued_call self path jd m])%list.
Proof.
  intros Hm Ha Hj. dispatch Hm; rewrite Ha; cbn [calls]; rewrite Hj;
    eexists; split; reflexivity.
Qed.

Lemma send_request_passes self path jd m w response body :
  supported m ->
  answer self path jd m w = Returned response ->
  json_body response = Some body ->
  mapped (status_code response) = false ->
  exists w',
    send_request self path jd m w = (Returned (status_code response, body), w') /\
    calls w' = (calls w ++ [issued_call self path jd m])%list.
Proof.
  intros Hm Ha Hj Hc. unfold mapped in Hc.
  dispatch Hm; rewrite Ha; cbn [calls]; rewrite Hj;
    unfold ret, api_logger_debug; cbn [api_logger_level]; rewrite Hc;
    eexists; (split; [reflexivity |]);
    destruct (api_logger_level w); reflexivity.
Qed.

Ltac enter_mapped Hm Ha Hj Hc :=
  unfold mapped in Hc;
  dispatch Hm; rewrite Ha; cbn [calls]; rewrite Hj;
  unfold ret, api_logger_debug; cbn [api_logger_level]; rewrite Hc;
  unfold lift, py_get.

Lemma send_request_mapped_message self path jd m w response items v klass :
  supported m ->
  answer self path jd m w = Returned response ->
  json_body response = Some (JDict items) ->
  mapped (status_code response) = true ->
  int_dict_get (status_code response) API_EXCEPTIONS = Some klass ->
  dict_lookup "message" items = Some v ->
  v <> JNull ->
  exists w',
    send_request self path jd m w = (Raised (klass v), w') /\
    calls w' = (calls w ++ [issued_call self path jd m])%list.
Proof.
  intros Hm Ha Hj Hc Hk Hl Hv.
  enter_mapped Hm Ha Hj Hc; rewrite Hl, Hk;
    (destruct v; [congruence | ..]);
    eexists; (split; [reflexivity |]);
    destruct (api_logger_level w); reflexivity.
Qed.

Lemma send_request_mapped_no_message self path jd m w response items :
  supported m ->
  answer self path jd m w = Returned response ->
  json_body response = Some (JDict items) ->
  mapped (status_code response) = true ->
  dict_lookup "message" items = None \/ dict_lookup "message" items = Some JNull ->
  exists w',
    send_request self path jd m w =
      (Raised (APIException (JStr (no_message_message response (JDict items)))), w') /\
    calls w' = (calls w ++ [issued_call self path jd m])%list.
Proof.
  intros Hm Ha Hj Hc Hl.
  destruct (mapped_class _ Hc) as (klass & Hk & _).
  enter_mapped Hm Ha Hj Hc; rewrite Hk;
    (destruct Hl as [-> | ->]);
    eexists; (split; [reflexivity |]);
    destruct (api_logger_level w); reflexivity.
Qed.

Lemma send_request_mapped_not_dict self path jd m w response body :
  supported m ->
  answer self path jd m w = Returned response ->
  json_body response = Some body ->
  mapped (status_code response) = true ->
  (forall items, body <> JDict items) ->
  exists w',
    send_request self path jd m w =
      (Raised (AttributeError
                 ("'" ++ type_name body ++ "' object has no attribute 'get'")), w') /\
    calls w' = (calls w ++ [issued_call self path jd m])%list.
Proof.
  intros Hm Ha Hj Hc Hb.
  enter_mapped Hm Ha Hj Hc;
    (destruct body; try (exfalso; eapply Hb; reflexivity));
    eexists; (split; [reflexivity |]);
    destruct (api_logger_level w); reflexivity.
Qed.

(** Whatever the body of a mapped status is, [send_request] raises. *)
Lemma send_request_mapped_raises self path jd m w response body :
  supported m ->
  answer self path jd m w = Returned response ->
  json_body response = Some body ->
  mapped (status_code response) = true ->
  exists e w',
    send_request self path jd m w = (Raised e, w') /\
    calls w' = (calls w ++ [issued_call self path jd m])%list.
Proof.
  intros Hm Ha Hj Hc.
  destruct body as [| b | n | x | s | xs | items].
  7: {
    destruct (mapped_class _ Hc) as (klass & Hk & _).
    destruct (dict_lookup "message" items) as [v |] eqn:Hl.
    - destruct v as [| b | n | x | s | xs | items'].
      1: { destruct (send_request_mapped_no_message self path jd m w response items)
             as (w' & H1 & H2); eauto. }
      all: match goal with
           | Hl : dict_lookup _ _ = Some ?v |- _ =>
               destruct (send_request_mapped_message self path jd m w response items v klass)
                 as (w' & H1 & H2); eauto; discriminate
           end.
    - destruct (send_request_mapped_no_message self path jd m w response items)
        as (w' & H1 & H2); eauto. }
  all: match goal with
       | Hj : json_body _ = Some ?b |- _ =>
           destruct (send_request_mapped_not_dict self path jd m w response b)
             as (w' & H1 & H2); eauto; discriminate
       end.
Qed.

(** *** Text *)

Lemma prefix_split a b :
  prefix a b = true <-> exists post, b = a ++ post.
Proof.
  revert b. induction a as [| c a IH]; intros b.
  - destruct b; cbn; split; eauto.
  - destruct b as [| d b]; cbn.
    + split; [discriminate | intros [post H]; discriminate].
    + destruct (ascii_dec c d) as [-> | Hn].
      * rewrite IH. split; intros [post H]; exists post;
          [now rewrite H | now inversion H].
      * split; [discriminate | intros [post H]; inversion H; congruence].
Qed.

Lemma str_in_occurs a b : str_in a b = true <-> occurs_in a b.
Proof.
  unfold occurs_in. induction b as [| d b IH]; cbn [str_in].
  - rewrite orb_false_r, prefix_split. split.
    + intros [post H]. exists EmptyString, post. exact H.
    + intros (pre & post & H). destruct pre; [eauto | discriminate].
  - rewrite orb_true_iff, prefix_split, IH. split.
    + intros [[post H] | (pre & post & H)].
      * exists EmptyString, post. exact H.
      * exists (String d pre), post. cbn. now rewrite H.
    + intros (pre & post & H). destruct pre as [| c pre]; cbn in H.
      * left. eauto.
      * right. inversion H. eauto.
Qed.

Lemma occurs_in_middle pre x post : occurs_in x (pre ++ x ++ post).
Proof. exists pre, post. reflexivity. Qed.

Lemma append_assoc3 a b c : (a ++ b) ++ c = a ++ b ++ c.
Proof. induction a; cbn; congruence. Qed.

Lemma occurs_in_append pre x t : occurs_in x t -> occurs_in x (pre ++ t).
Proof.
  intros (a & b & ->). exists (pre ++ a), b. now rewrite append_assoc3.
Qed.

Lemma occurs_in_cons c x t : occurs_in x t -> occurs_in x (String c t).
Proof. apply (occurs_in_append (String c EmptyString)). Qed.

Lemma occurs_in_head x t : occurs_in x (x ++ t).
Proof. exists EmptyString, t. reflexivity. Qed.

Lemma py_format_other c fmt args :
  c <> "%"%char \/ (forall rest, fmt <> String "s" rest) ->
  py_format (String c fmt) args = String c (py_format fmt args) /\
  directives (String c fmt) = directives fmt.
Proof.
  intros H.
  destruct c as [[] [] [] [] [] [] [] []]; try (split; reflexivity).
  destruct fmt as [| d rest]; [split; reflexivity |].
  destruct d as [[] [] [] [] [] [] [] []]; try (split; reflexivity).
  exfalso. destruct H as [H | H]; [now apply H | now apply (H rest)].
Qed.

Lemma format_shape c fmt :
  (c = "%"%char /\ exists rest, fmt = String "s" rest) \/
  (c <> "%"%char \/ forall rest, fmt <> String "s" rest).
Proof.
  destruct (ascii_dec c "%") as [-> | Hc]; [| now right; left].
  destruct fmt as [| d rest]; [right; right; discriminate |].
  destruct (ascii_dec d "s") as [-> | Hd].
  - left. eauto.
  - right. right. intros rest' E. now inversion E.
Qed.

(** Every argument of a format with enough directives shows in the
    result. *)
Lemma py_format_occurs n :
  forall fmt args a,
    (String.length fmt <= n)%nat ->
    (List.length args <= directives fmt)%nat ->
    In a args ->
    occurs_in a (py_format fmt args).
Proof.
  induction n as [| n IH]; intros fmt args a Hn Hd Hin.
  - destruct fmt; [| cbn in Hn; lia].
    destruct args; [easy | cbn in Hd; lia].
  - destruct fmt as [| c fmt]; [destruct args; [easy | cbn in Hd; lia] |].
    destruct (format_shape c fmt) as [(-> & rest & ->) | Hs].
    + cbn [py_format]. destruct args as [| a0 args]; [easy |].
      destruct Hin as [-> | Hin]; [apply occurs_in_head |].
      apply occurs_in_append, IH; auto; cbn in Hn, Hd; lia.
    + destruct (py_format_other c fmt args Hs) as [-> E].
      apply occurs_in_cons, IH; auto; [cbn in Hn; lia | now rewrite <- E].
Qed.

Lemma py_format_shows fmt args a :
  (List.length args <=? directives fmt)%nat = true ->
  In a args ->
  occurs_in a (py_format fmt args).
Proof.
  intros H. apply Nat.leb_le in H. now apply (py_format_occurs (String.length fmt)).
Qed.

Lemma concat_repr_plain quote cs :
  Forall (fun c => Ascii.eqb c quote = false /\ Ascii.eqb c bs_char = false /\
                   (32 <= N_of_ascii c < 127)%N) cs ->
  String.concat EmptyString (map (repr_byte quote) cs) = string_of_list_ascii cs.
Proof.
  induction 1 as [| c cs (Hq & Hb & Hlo & Hhi) _ IH]; [reflexivity |].
  assert (Hc : repr_byte quote c = String c EmptyString).
  { unfold repr_byte. rewrite Hq, Hb. cbn [orb].
    repeat match goal with
           | |- context [(?a =? ?b)%N] => destruct (N.eqb_spec a b); [lia |]
           end.
    destruct (N.ltb_spec (N_of_ascii c) 32); [lia |].
    destruct (N.leb_spec 127 (N_of_ascii c)); [lia | reflexivity]. }
  cbn [map string_of_list_ascii]. destruct cs as [| c' cs'].
  - cbn. exact Hc.
  - change (String.concat EmptyString (repr_byte quote c :: map (repr_byte quote) (c' :: cs')))
      with (repr_byte quote c ++ EmptyString ++
            String.concat EmptyString (map (repr_byte quote) (c' :: cs'))).
    rewrite IH, Hc. reflexivity.
Qed.

(** Plain bytes come out of the Python 3 literal form unchanged,
    between [b'] and ['].  *)
Lemma bytes_repr_plain b :
  forallb plain_byte b = true ->
  bytes_repr b =
  String "b" (String sq_char (string_of_list_byte b ++ String sq_char EmptyString)).
Proof.
  intros Hp. unfold bytes_repr, string_of_list_byte.
  assert (Hall : Forall (fun c => Ascii.eqb c sq_char = false /\
                                  Ascii.eqb c bs_char = false /\
                                  (32 <= N_of_ascii c < 127)%N)
                        (map ascii_of_byte b)).
  { apply Forall_map, Forall_forall. intros x Hx.
    rewrite forallb_forall in Hp. specialize (Hp x Hx). unfold plain_byte in Hp.
    rewrite !andb_true_iff, !negb_true_iff in Hp.
    destruct Hp as [[[H1 H2] H3] H4].
    apply N.leb_le in H1. apply N.ltb_lt in H2. auto. }
  assert (Hsq : existsb (Ascii.eqb sq_char) (map ascii_of_byte b) = false).
  { clear Hp. induction Hall as [| c cs (Hq & _) _ IH]; [reflexivity |].
    cbn [existsb]. rewrite Ascii.eqb_sym, Hq, IH. reflexivity. }
  rewrite Hsq. cbn [andb]. rewrite (concat_repr_plain _ _ Hall). reflexivity.
Qed.

(** Every supported call reaches the transport exactly once. *)
Lemma send_request_calls self path jd m w :
  supported m ->
  calls (snd (send_request self path jd m w)) =
  (calls w ++ [issued_call self path jd m])%list.
Proof.
  intros Hm.
  destruct (answer self path jd m w) as [response | e] eqn:Ha.
  - destruct (json_body response) as [body |] eqn:Hj.
    + destruct (mapped (status_code response)) eqn:Hc.
      * destruct (send_request_mapped_raises self path jd m w response body)
          as (e & w' & -> & Hw); auto.
      * destruct (send_request_passes self path jd m w response body)
          as (w' & -> & Hw); auto.
    + destruct (send_request_not_json self path jd m w response)
        as (w' & -> & Hw); auto.
  - destruct (send_request_transport_raises self path jd m w e)
      as (w' & -> & Hw); auto.
Qed.

Lemma not_mapped code :
  code <> 400 -> code <> 403 -> code <> 404 -> mapped code = false.
Proof.
  intros H1 H2 H3. destruct (mapped code) eqn:Hc; [| reflexivity].
  apply mapped_cases in Hc. intuition congruence.
Qed.

(** ** The claims about [send_request] *)

(** C1, as the code has it: for a response with status 400, 403 or 404
    whose decoded body is an object holding [message] with a value other
    than null, [send_request] raises the kind mapped to the status
    (400 BadRequestException, 403 ForbiddenException, 404
    NotFoundException) built from exactly that value. *)
Theorem send_request_raises_mapped_kind self path jd m w response items v :
  supported m ->
  answer self path jd m w = Returned response ->
  json_body response = Some (JDict items) ->
  dict_lookup "message" items = Some v ->
  v <> JNull ->
  (status_code response = 400 ->
   fst (send_request self path jd m w) = Raised (BadRequestException v)) /\
  (status_code response = 403 ->
   fst (send_request self path jd m w) = Raised (ForbiddenException v)) /\
  (status_code response = 404 ->
   fst (send_request self path jd m w) = Raised (NotFoundException v)).
Proof.
  intros Hm Ha Hj Hl Hv.
  repeat split; intros Hc;
    match goal with
    | |- _ = Raised (?k v) =>
        destruct (send_request_mapped_message self path jd m w response items v k)
          as (w' & -> & _); auto; rewrite Hc; reflexivity
    end.
Qed.

(** C4: for a response whose status is none of 400, 403, 404 and whose
    body decodes as JSON, 2xx and 500 included, [send_request] raises
    nothing and returns the pair of the status code and the decoded
    body. *)
Theorem send_request_returns_status_and_body self path jd m w response body :
  supported m ->
  answer self path jd m w = Returned response ->
  json_body response = Some body ->
  status_code response <> 400 ->
  status_code response <> 403 ->
  status_code response <> 404 ->
  fst (send_request self path jd m w) = Returned (status_code response, body).
Proof.
  intros Hm Ha Hj H1 H2 H3.
  destruct (send_request_passes self path jd m w response body)
    as (w' & -> & _); auto using not_mapped.
Qed.

(** C5, as the code has it: for a response with status 400, 403 or 404
    whose decoded body is an object without [message], [send_request]
    raises APIException and the message holds the decimal status code
    and the dump of the whole body. *)
Theorem send_request_missing_message_is_generic self path jd m w response items :
  supported m ->
  answer self path jd m w = Returned response ->
  json_body response = Some (JDict items) ->
  status_code response = 400 \/ status_code response = 403 \/
    status_code response = 404 ->
  dict_lookup "message" items = None ->
  exists msg,
    fst (send_request self path jd m w) = Raised (APIException (JStr msg)) /\
    occurs_in (str_int (status_code response)) msg /\
    occurs_in (json_dumps (Some 4%nat) (JDict items)) msg.
Proof.
  intros Hm Ha Hj Hc Hl. apply mapped_cases in Hc.
  destruct (send_request_mapped_no_message self path jd m w response items)
    as (w' & -> & _); auto.
  eexists. split; [reflexivity |]. unfold no_message_message.
  split; apply py_format_shows; cbn; auto.
Qed.

Lemma occurs_in_trans a b c : occurs_in a b -> occurs_in b c -> occurs_in a c.
Proof.
  intros (p1 & q1 & ->) (p2 & q2 & ->).
  exists (p2 ++ p1), (q1 ++ q2). now rewrite !append_assoc3.
Qed.

Lemma occurs_in_refl a : occurs_in a a.
Proof.
  exists EmptyString, EmptyString. cbn. induction a; cbn; congruence.
Qed.

(** Where [str()] of a bytes object shows the bytes as they are. *)
Lemma bytes_str_raw py3 b :
  py3 = false \/ forallb plain_byte b = true ->
  occurs_in (string_of_list_byte b) (bytes_str py3 b).
Proof.
  intros [-> | Hp]; [apply occurs_in_refl |].
  destruct py3; [| apply occurs_in_refl].
  cbn [bytes_str]. rewrite (bytes_repr_plain _ Hp).
  exists (String "b" (String sq_char EmptyString)), (String sq_char EmptyString).
  reflexivity.
Qed.

(** C6, as the code has it: for a response whose body is not JSON,
    [send_request] raises APIException; the message holds the issue
    tracking URL and the [%s] rendering of [response.content[:20]], that
    is of at most the first 20 bytes: the bytes themselves under
    Python 2, their literal form [b'...'] under Python 3, in which the
    bytes stand unchanged when each is printable ASCII other than the
    apostrophe and the backslash. *)
Theorem send_request_body_not_json self path jd m w response :
  supported m ->
  answer self path jd m w = Returned response ->
  json_body response = None ->
  exists msg,
    fst (send_request self path jd m w) = Raised (APIException (JStr msg)) /\
    occurs_in ISSUE_URL msg /\
    occurs_in (bytes_str PY3 (firstn 20 (content response))) msg /\
    (PY3 = false \/ forallb plain_byte (firstn 20 (content response)) = true ->
     occurs_in (string_of_list_byte (firstn 20 (content response))) msg).
Proof.
  intros Hm Ha Hj.
  destruct (send_request_not_json self path jd m w response) as (w' & -> & _); auto.
  eexists. split; [reflexivity |]. unfold not_json_message.
  assert (Hb : occurs_in (bytes_str PY3 (firstn 20 (content response)))
                 (py_format
                    ("REST API service did not return JSON, if this issue"
                     ++ " persists please create an issue in the w3af framework"
                     ++ " repository at %s. The response body starts with: "
                     ++ dq ++ "%s" ++ dq)
                    [ISSUE_URL; bytes_str PY3 (firstn 20 (content response))]))
    by (apply py_format_shows; cbn; auto).
  split; [apply py_format_shows; cbn; auto |]. split; [exact Hb |].
  intros Hraw. eapply occurs_in_trans; [| exact Hb].
  now apply bytes_str_raw.
Qed.

(** C7: for a method other than GET, POST and DELETE, [send_request]
    raises ValueError with the text of the invalid-method error and
    leaves the world as it was: the transport is not invoked, the history
    of calls is unchanged. *)
Theorem send_request_rejects_method self path jd m w :
  m <> "GET" -> m <> "POST" -> m <> "DELETE" ->
  fst (send_request self path jd m w) =
    Raised (ValueError ("Invalid HTTP method: " ++ dq ++ m ++ dq)) /\
  snd (send_request self path jd m w) = w /\
  calls (snd (send_request self path jd m w)) = calls w.
Proof.
  intros H1 H2 H3.
  rewrite send_request_unsupported; [auto |].
  intros [E | [E | E]]; auto.
Qed.

(** C9: for a response with status 400, 403 or 404 whose decoded body
    holds [message] bound to null, [send_request] does what it does when
    the field is absent: it raises APIException with the message of the
    missing field, and none of the three mapped kinds. *)
Theorem send_request_null_message_is_generic self path jd m w response items :
  supported m ->
  answer self path jd m w = Returned response ->
  json_body response = Some (JDict items) ->
  status_code response = 400 \/ status_code response = 403 \/
    status_code response = 404 ->
  dict_lookup "message" items = Some JNull ->
  fst (send_request self path jd m w) =
    Raised (APIException (JStr (no_message_message response (JDict items)))) /\
  forall arg,
    fst (send_request self path jd m w) <> Raised (BadRequestException arg) /\
    fst (send_request self path jd m w) <> Raised (ForbiddenException arg) /\
    fst (send_request self path jd m w) <> Raised (NotFoundException arg).
Proof.
  intros Hm Ha Hj Hc Hl. apply mapped_cases in Hc.
  destruct (send_request_mapped_no_message self path jd m w response items)
    as (w' & -> & _); auto.
  split; [reflexivity |]. intros arg. repeat split; discriminate.
Qed.

(** C10: with GET and with DELETE the [json_data] argument plays no
    part: the call handed to the transport carries no payload, and the
    outcome and the world after the request are the same for any two
    values of the argument. *)
Theorem send_request_ignores_body self path jd jd' m w :
  m = "GET" \/ m = "DELETE" ->
  send_request self path jd m w = send_request self path jd' m w /\
  data (issued_call self path jd m) = None /\
  calls (snd (send_request self path jd m w)) =
    (calls w ++ [issued_call self path jd m])%list.
Proof.
  intros Hm. split; [| split].
  - destruct Hm as [-> | ->]; reflexivity.
  - destruct Hm as [-> | ->]; reflexivity.
  - apply send_request_calls. destruct Hm; red; auto.
Qed.

(** ** The handshake *)

(** What [send_request] returned came from a response that decoded and
    whose status is not mapped. *)
Lemma send_request_returned_inv self path jd m w r :
  supported m ->
  fst (send_request self path jd m w) = Returned r ->
  exists response,
    answer self path jd m w = Returned response /\
    json_body response = Some (snd r) /\
    mapped (status_code response) = false /\
    fst r = status_code response.
Proof.
  intros Hm Hr.
  destruct (answer self path jd m w) as [response | e] eqn:Ha.
  - destruct (json_body response) as [body |] eqn:Hj.
    + destruct (mapped (status_code response)) eqn:Hc.
      * destruct (send_request_mapped_raises self path jd m w response body)
          as (e & w' & E & _); auto. rewrite E in Hr. discriminate.
      * destruct (send_request_passes self path jd m w response body)
          as (w' & E & _); auto. rewrite E in Hr. cbn in Hr.
        injection Hr as <-. exists response. cbn. auto.
    + destruct (send_request_not_json self path jd m w response)
        as (w' & E & _); auto. rewrite E in Hr. discriminate.
  - destruct (send_request_transport_raises self path jd m w e)
      as (w' & E & _); auto. rewrite E in Hr. discriminate.
Qed.

Lemma can_access_api_fst self w :
  fst (can_access_api self w) =
  match fst (send_request self "/version" JNull "GET" w) with
  | Raised e => Raised (APIException (JStr (connect_message e)))
  | Returned r =>
      match py_contains "version" (snd r) with
      | Returned true => Returned true
      | Returned false =>
          Raised (APIException
                    (JStr "Unexpected HTTP response when connecting to REST API"))
      | Raised e => Raised e
      end
  end.
Proof.
  unfold can_access_api, try_except_else, get_version, bind, ret, lift, raise.
  destruct (send_request self "/version" JNull "GET" w) as [[r | e] w']; cbn [fst snd];
    [| reflexivity].
  destruct (py_contains "version" (snd r)) as [[|] | e]; reflexivity.
Qed.

Lemma Connection_init_fst url0 verbose timeout0 verify_flag w :
  let self := {| api_url := url0; session := configure_requests verify_flag;
                 timeout := timeout0 |} in
  fst (Connection_init url0 verbose timeout0 verify_flag w) =
  match fst (can_access_api self (snd (set_verbose verbose w))) with
  | Returned _ => Returned self
  | Raised e => Raised e
  end.
Proof.
  cbn zeta. unfold Connection_init, bind, ret. cbn [set_verbose fst snd].
  match goal with
  | |- context [can_access_api ?c ?w1] => destruct (can_access_api c w1) as [[b | e] w2]
  end; reflexivity.
Qed.

Lemma handshake_answer url0 verbose timeout0 verify_flag w :
  answer {| api_url := url0; session := configure_requests verify_flag;
            timeout := timeout0 |} "/version" JNull "GET" (snd (set_verbose verbose w)) =
  handshake_reply url0 timeout0 verify_flag w.
Proof. reflexivity. Qed.

Lemma supported_GET : supported "GET".
Proof. red; auto. Qed.

(** On an object, [in] looks for a key. *)
Lemma py_contains_dict key items :
  py_contains key (JDict items) = Returned true <->
  exists v, dict_lookup key items = Some v.
Proof.
  cbn [py_contains]. induction items as [| [k v] items IH]; cbn [existsb dict_lookup fst].
  - split; [discriminate | intros [v H]; discriminate].
  - destruct (String.eqb k key); cbn [orb]; [split; eauto | exact IH].
Qed.

(** C3, as the code has it: [send_request] has no handler around the
    HTTP call, so an exception of the transport leaves it unchanged; it
    is [can_access_api], during construction, that catches the exception
    of the version call and raises APIException with the description of
    the cause inside the message. *)
Theorem transport_exception_propagates self path jd m w e :
  (supported m ->
   answer self path jd m w = Raised e ->
   fst (send_request self path jd m w) = Raised e) /\
  (answer self "/version" JNull "GET" w = Raised e ->
   exists msg,
     fst (can_access_api self w) = Raised (APIException (JStr msg)) /\
     occurs_in (exc_str e) msg).
Proof.
  split.
  - intros Hm Ha.
    destruct (send_request_transport_raises self path jd m w e) as (w' & -> & _); auto.
  - intros Ha. rewrite can_access_api_fst.
    destruct (send_request_transport_raises self "/version" JNull "GET" w e)
      as (w' & -> & _); auto using supported_GET.
    eexists. split; [reflexivity |].
    unfold connect_message. apply py_format_shows; cbn; auto.
Qed.

(** C2, as the code has it: construction returns the session exactly
    when the version call yields a response whose status is none of 400,
    403, 404, whose body decodes, and for which ['version' in body]
    holds; the status need not be 200.  Otherwise, as long as a decoded
    body that passes the status test is a dict, a list or a string,
    construction raises APIException and returns nothing. *)
Theorem Connection_init_handshake url0 verbose timeout0 verify_flag w :
  let self := {| api_url := url0; session := configure_requests verify_flag;
                 timeout := timeout0 |} in
  let built := fst (Connection_init url0 verbose timeout0 verify_flag w) in
  let reply := handshake_reply url0 timeout0 verify_flag w in
  let accepted :=
    exists response body,
      reply = Returned response /\
      json_body response = Some body /\
      mapped (status_code response) = false /\
      py_contains "version" body = Returned true in
  ((exists c, built = Returned c) <-> accepted) /\
  (accepted -> built = Returned self) /\
  (~ accepted ->
   (forall response body,
      reply = Returned response -> json_body response = Some body ->
      mapped (status_code response) = false -> container body) ->
   exists arg, built = Raised (APIException arg)).
Proof.
  cbn zeta. rewrite Connection_init_fst, can_access_api_fst. cbn zeta.
  set (self := {| api_url := url0; session := configure_requests verify_flag;
                  timeout := timeout0 |}).
  set (w1 := snd (set_verbose verbose w)).
  pose proof (handshake_answer url0 verbose timeout0 verify_flag w) as Hans.
  fold self w1 in Hans.
  assert (Hok : forall response body,
             handshake_reply url0 timeout0 verify_flag w = Returned response ->
             json_body response = Some body ->
             mapped (status_code response) = false ->
             fst (send_request self "/version" JNull "GET" w1) =
               Returned (status_code response, body)).
  { intros response body Hr Hj Hc. rewrite <- Hans in Hr.
    destruct (send_request_passes self "/version" JNull "GET" w1 response body)
      as (w' & -> & _); auto using supported_GET. }
  assert (Hacc : (exists response body,
                    handshake_reply url0 timeout0 verify_flag w = Returned response /\
                    json_body response = Some body /\
                    mapped (status_code response) = false /\
                    py_contains "version" body = Returned true) ->
                 match fst (send_request self "/version" JNull "GET" w1) with
                 | Returned r =>
                     match py_contains "version" (snd r) with
                     | Returned true => Returned true
                     | Returned false =>
                         Raised (APIException
                           (JStr "Unexpected HTTP response when connecting to REST API"))
                     | Raised e => Raised e
                     end
                 | Raised e => Raised (APIException (JStr (connect_message e)))
                 end = Returned true).
  { intros (response & body & Hr & Hj & Hc & Hv).
    rewrite (Hok response body Hr Hj Hc). cbn [snd]. now rewrite Hv. }
  split; [split |].
  - intros [c Hc].
    destruct (fst (send_request self "/version" JNull "GET" w1)) as [r | e] eqn:Hs;
      [| discriminate].
    destruct (send_request_returned_inv self "/version" JNull "GET" w1 r supported_GET Hs)
      as (response & Ha & Hj & Hm & _).
    rewrite Hans in Ha. exists response, (snd r).
    destruct (py_contains "version" (snd r)) as [[|] | e]; try discriminate. auto.
  - intros H. rewrite (Hacc H). eauto.
  - split.
    + intros H. now rewrite (Hacc H).
    + intros Hno Hcont.
      destruct (fst (send_request self "/version" JNull "GET" w1)) as [r | e] eqn:Hs;
        [| eauto].
      destruct (send_request_returned_inv self "/version" JNull "GET" w1 r supported_GET Hs)
        as (response & Ha & Hj & Hm & _).
      rewrite Hans in Ha. specialize (Hcont response (snd r) Ha Hj Hm).
      destruct (py_contains "version" (snd r)) as [[|] | e] eqn:Hv.
      * exfalso. apply Hno. exists response, (snd r). auto.
      * eauto.
      * destruct (snd r); cbn in Hcont, Hv; try contradiction; discriminate.
Qed.

(** ** The listing *)

Lemma get_scans_fst self w :
  fst (get_scans self w) =
  match fst (send_request self "/scans/" JNull "GET" w) with
  | Raised e => Raised e
  | Returned r =>
      if negb (fst r =? 200) then
        Raised (APIException
                  (JStr (py_format "Failed to retrieve scans. Unexpected code %s"
                                  [str_int (fst r)])))
      else
        match py_get (snd r) "items" with
        | Raised e => Raised e
        | Returned JNull =>
            Raised (APIException
                      (JStr ("Failed to retrieve scans, no " ++ dq ++ "items" ++ dq
                             ++ " in JSON.")))
        | Returned scans =>
            match py_iter scans with
            | Raised e => Raised e
            | Returned xs => build_scans self xs []
            end
        end
  end.
Proof.
  unfold get_scans, bind, lift, raise.
  destruct (send_request self "/scans/" JNull "GET" w) as [[r | e] w']; cbn [fst snd];
    [| reflexivity].
  destruct (negb (fst r =? 200)); [reflexivity |].
  destruct (py_get (snd r) "items") as [scans | e]; [| reflexivity].
  destruct scans; try reflexivity;
    match goal with
    | |- context [py_iter ?v] => destruct (py_iter v); reflexivity
    end.
Qed.

(** The loop appends the handles of well-formed descriptors in order. *)
Lemma build_scans_describes self ds handles :
  Forall2 (describes self) ds handles ->
  forall acc, build_scans self ds acc = Returned (acc ++ handles)%list.
Proof.
  induction 1 as [| d h ds handles (fields & -> & Hid & Hst & Hc) _ IH]; intros acc.
  - cbn. now rewrite app_nil_r.
  - cbn [build_scans py_getitem]. rewrite Hid, Hst, IH, <- app_assoc. cbn [app].
    destruct h as [c i st]. cbn in *. now subst.
Qed.

(** C8, as the code has it: when the listing call returns status 200
    and an object whose [items] is a list of descriptors, [get_scans]
    returns one handle per descriptor, in order, with its [id] and its
    [status]; a status other than 200 that is none of 400, 403, 404, and
    a 200 object without [items], raise APIException; with 400, 403 or
    404 the exception of [send_request] leaves [get_scans] unchanged. *)
Theorem get_scans_listing self w response :
  answer self "/scans/" JNull "GET" w = Returned response ->
  (forall fields ds handles,
     json_body response = Some (JDict fields) ->
     status_code response = 200 ->
     dict_lookup "items" fields = Some (JList ds) ->
     Forall2 (describes self) ds handles ->
     fst (get_scans self w) = Returned handles) /\
  (forall body,
     json_body response = Some body ->
     status_code response <> 200 ->
     mapped (status_code response) = false ->
     fst (get_scans self w) =
       Raised (APIException
                 (JStr (py_format "Failed to retrieve scans. Unexpected code %s"
                                  [str_int (status_code response)])))) /\
  (forall fields,
     json_body response = Some (JDict fields) ->
     status_code response = 200 ->
     dict_lookup "items" fields = None ->
     fst (get_scans self w) =
       Raised (APIException
                 (JStr ("Failed to retrieve scans, no " ++ dq ++ "items" ++ dq
                        ++ " in JSON.")))) /\
  (forall body,
     json_body response = Some body ->
     mapped (status_code response) = true ->
     exists e,
       fst (send_request self "/scans/" JNull "GET" w) = Raised e /\
       fst (get_scans self w) = Raised e).
Proof.
  intros Ha. rewrite get_scans_fst. repeat split.
  - intros fields ds handles Hj Hc Hl Hd.
    destruct (send_request_passes self "/scans/" JNull "GET" w response (JDict fields))
      as (w' & -> & _); auto using supported_GET.
    { rewrite Hc. reflexivity. }
    cbn [fst snd py_get]. rewrite Hc, Hl. cbn.
    apply (build_scans_describes self ds handles Hd []).
  - intros body Hj Hc Hm.
    destruct (send_request_passes self "/scans/" JNull "GET" w response body)
      as (w' & -> & _); auto using supported_GET.
    cbn [fst snd]. destruct (Z.eqb_spec (status_code response) 200); [contradiction |].
    reflexivity.
  - intros fields Hj Hc Hl.
    destruct (send_request_passes self "/scans/" JNull "GET" w response (JDict fields))
      as (w' & -> & _); auto using supported_GET.
    { rewrite Hc. reflexivity. }
    cbn [fst snd py_get]. rewrite Hc, Hl. reflexivity.
  - intros body Hj Hm.
    destruct (send_request_mapped_raises self "/scans/" JNull "GET" w response body)
      as (e & w' & -> & _); auto using supported_GET.
    exists e. split; reflexivity.
Qed.

(** ** Beyond the claims: the request, the world and the log *)

(** [send_request] on a supported method, step by step. *)
Lemma send_request_run self path jd m w :
  supported m ->
  send_request self path jd m w =
  let w1 := snd (session_request (session self) (issued_call self path jd m) w) in
  match answer self path jd m w with
  | Raised e => (Raised e, w1)
  | Returned response =>
      match json_body response with
      | None => (Raised (APIException (JStr (not_json_message response))), w1)
      | Some body =>
          (if mapped (status_code response)
           then mapped_outcome response body
           else Returned (status_code response, body),
           snd (api_logger_debug (received_message response body) w1))
      end
  end.
Proof.
  intros Hm. unfold mapped, mapped_outcome, received_message, not_json_message,
    no_message_message.
  dispatch Hm;
    (match goal with
     | |- context [remote ?s ?h ?c] => destruct (remote s h c) as [response | e]
     end; [| reflexivity]);
    cbn [calls]; (destruct (json_body response) as [body |]; [| reflexivity]);
    unfold ret, api_logger_debug, lift, raise; cbn [api_logger_level];
    (destruct (int_dict_mem (status_code response) API_EXCEPTIONS);
     [| destruct (api_logger_level w); reflexivity]);
    (destruct (py_get body "message") as [error | e];
     [| destruct (api_logger_level w); reflexivity]);
    (destruct (int_dict_get (status_code response) API_EXCEPTIONS) as [k |];
     [| destruct (api_logger_level w); reflexivity]);
    destruct error; destruct (api_logger_level w); reflexivity.
Qed.

Lemma supported_dec m : supported m \/ ~ supported m.
Proof.
  unfold supported.
  destruct (string_dec m "GET"); [auto |].
  destruct (string_dec m "DELETE"); [auto |].
  destruct (string_dec m "POST"); [auto |].
  right. intuition.
Qed.

Lemma supportedb_spec m : reflect (supported m) (supportedb m).
Proof.
  unfold supported, supportedb.
  destruct (String.eqb_spec m "GET"); [constructor; auto |].
  destruct (String.eqb_spec m "DELETE"); [constructor; auto |].
  destruct (String.eqb_spec m "POST"); constructor; [auto | intuition].
Qed.

Lemma api_logger_debug_keeps msg w :
  calls (snd (api_logger_debug msg w)) = calls w /\
  same_logging w (snd (api_logger_debug msg w)).
Proof.
  unfold api_logger_debug, same_logging. cbn [snd].
  destruct (api_logger_level w) eqn:E; cbn; rewrite ?E; auto 6.
Qed.

Lemma map_const_repeat {A B} (x : B) (l : list A) :
  map (fun _ => x) l = repeat x (List.length l).
Proof. induction l; cbn; congruence. Qed.

(** X1: when the transport answers a supported method, it was reached
    exactly once, whatever [send_request] then does with the response,
    an exception for a body that is not JSON or for a mapped status
    included: the history has grown by the one call with the method, the
    joined URL, the timeout of the connection, and a payload,
    [json.dumps(json_data)], for POST only. *)
Theorem send_request_issues_one_call self path jd m w response :
  supported m ->
  answer self path jd m w = Returned response ->
  calls (snd (send_request self path jd m w)) =
  (calls w ++
   [ {| verb := m;
        url := urljoin (api_url self) path;
        data := if (m =? "POST")%string then Some (json_dumps None jd) else None;
        call_timeout := timeout self |} ])%list.
Proof.
  intros Hm _. rewrite (send_request_calls self path jd m w Hm). reflexivity.
Qed.

(** X2: what [send_request] returns is never a mapped status: a returned
    pair [(code, body)] comes from a supported method and a response with
    that status, none of 400, 403, 404, and that decoded body. *)
Theorem send_request_returns_only_unmapped self path jd m w code body :
  fst (send_request self path jd m w) = Returned (code, body) ->
  supported m /\
  code <> 400 /\ code <> 403 /\ code <> 404 /\
  exists response,
    answer self path jd m w = Returned response /\
    status_code response = code /\
    json_body response = Some body.
Proof.
  intros Hr. destruct (supported_dec m) as [Hm | Hm].
  - destruct (send_request_returned_inv self path jd m w (code, body) Hm Hr)
      as (response & Ha & Hj & Hc & Hs).
    cbn [fst snd] in *. subst code. split; [exact Hm |].
    assert (Hn : ~ (status_code response = 400 \/ status_code response = 403 \/
                    status_code response = 404)).
    { intros H. apply mapped_cases in H. congruence. }
    repeat split; try (intros E; apply Hn; auto). eauto.
  - rewrite (send_request_unsupported self path jd m w Hm) in Hr. discriminate.
Qed.

(** The exceptions that can leave [send_request] once a response came
    back. *)
Lemma send_request_raised_cases self path jd m w response e :
  supported m ->
  answer self path jd m w = Returned response ->
  fst (send_request self path jd m w) = Raised e ->
  (exists msg, e = APIException (JStr msg)) \/
  (exists msg, e = AttributeError msg) \/
  (exists items v,
     json_body response = Some (JDict items) /\
     dict_lookup "message" items = Some v /\
     v <> JNull /\
     (status_code response = 400 /\ e = BadRequestException v \/
      status_code response = 403 /\ e = ForbiddenException v \/
      status_code response = 404 /\ e = NotFoundException v)).
Proof.
  intros Hm Ha He. rewrite (send_request_run self path jd m w Hm), Ha in He.
  cbn zeta in He.
  destruct (json_body response) as [body |] eqn:Hj; cbn [fst] in He.
  2: { injection He as <-. eauto. }
  destruct (mapped (status_code response)) eqn:Hc; [| discriminate].
  destruct (mapped_class _ Hc) as (klass & Hk & Hcode).
  unfold mapped_outcome in He. rewrite Hk in He.
  destruct body as [| b | n | x | s | xs | items]; cbn [py_get] in He;
    try (injection He as <-; eauto).
  destruct (dict_lookup "message" items) as [v0 |] eqn:Hl;
    [| injection He as <-; eauto].
  destruct v0 as [| b | n | x | s | xs | items'];
    [injection He as <-; eauto | ..].
  all: injection He as <-; right; right; eexists items, _;
    (split; [reflexivity |]); (split; [exact Hl |]); (split; [discriminate |]);
    destruct Hcode as [[C ->] | [[C ->] | [C ->]]]; auto.
Qed.

(** X3: a mapped kind leaves [send_request] only for its own status and
    with the value of the field: when a response came back and the error
    is BadRequestException, ForbiddenException or NotFoundException built
    from [v], the body is an object whose [message] is [v], which is not
    null, and the status is 400, 403 or 404 in that order. *)
Theorem send_request_mapped_kind_origin self path jd m w response e v :
  supported m ->
  answer self path jd m w = Returned response ->
  fst (send_request self path jd m w) = Raised e ->
  e = BadRequestException v \/ e = ForbiddenException v \/ e = NotFoundException v ->
  (exists items,
     json_body response = Some (JDict items) /\
     dict_lookup "message" items = Some v /\
     v <> JNull) /\
  (e = BadRequestException v -> status_code response = 400) /\
  (e = ForbiddenException v -> status_code response = 403) /\
  (e = NotFoundException v -> status_code response = 404).
Proof.
  intros Hm Ha He Hk.
  destruct (send_request_raised_cases self path jd m w response e Hm Ha He)
    as [[msg ->] | [[msg ->] | (items & v0 & Hj & Hl & Hv & Hc)]].
  - destruct Hk as [E | [E | E]]; discriminate.
  - destruct Hk as [E | [E | E]]; discriminate.
  - assert (v0 = v) as ->.
    { destruct Hc as [[_ ->] | [[_ ->] | [_ ->]]];
        destruct Hk as [E | [E | E]]; congruence. }
    split; [eauto |].
    destruct Hc as [[C ->] | [[C ->] | [C ->]]];
      repeat split; intros E; try discriminate; exact C.
Qed.

(** X4: once a response came back, [send_request] raises nothing but
    APIException, one of the three mapped kinds, or the AttributeError of
    a body without [get]: never ValueError, TypeError, KeyError or an
    exception of the transport.  In particular the class looked up in
    [API_EXCEPTIONS] is never missing. *)
Theorem send_request_never_raises_others self path jd m w response :
  supported m ->
  answer self path jd m w = Returned response ->
  forall text key cls,
    fst (send_request self path jd m w) <> Raised (ValueError text) /\
    fst (send_request self path jd m w) <> Raised (TypeError text) /\
    fst (send_request self path jd m w) <> Raised (KeyError key) /\
    fst (send_request self path jd m w) <> Raised (RequestException cls text).
Proof.
  intros Hm Ha text key cls.
  repeat split; intros He;
    destruct (send_request_raised_cases self path jd m w response _ Hm Ha He)
      as [[msg E] | [[msg E] | (items & v0 & _ & _ & _ & Hc)]];
    try discriminate;
    destruct Hc as [[_ E] | [[_ E] | [_ E]]]; discriminate.
Qed.

(** X5: under a mapped status a decoded body that is not an object
    (a list, a string, a number, a boolean, null) makes [.get] fail: the
    AttributeError leaves [send_request], not a member of the taxonomy. *)
Theorem send_request_mapped_non_object self path jd m w response body :
  supported m ->
  answer self path jd m w = Returned response ->
  json_body response = Some body ->
  status_code response = 400 \/ status_code response = 403 \/
    status_code response = 404 ->
  (forall items, body <> JDict items) ->
  fst (send_request self path jd m w) =
    Raised (AttributeError ("'" ++ type_name body ++ "' object has no attribute 'get'")).
Proof.
  intros Hm Ha Hj Hc Hb. apply mapped_cases in Hc.
  destruct (send_request_mapped_not_dict self path jd m w response body)
    as (w' & -> & _); auto.
Qed.

(** *** The log

    [emitted] holds what the handlers of [api_logger] itself write;
    handlers an application hangs on the root logger are outside the
    world. *)

Lemma api_logger_debug_emitted msg w :
  emitted (snd (api_logger_debug msg w)) =
  match api_logger_level w with
  | DEBUG => (emitted w ++ repeat msg (debug_handlers w))%list
  | _ => emitted w
  end.
Proof.
  unfold api_logger_debug, debug_handlers. cbn [snd].
  destruct (api_logger_level w); cbn [emitted]; [| reflexivity ..].
  now rewrite map_const_repeat.
Qed.

Lemma same_logging_refl w : same_logging w w.
Proof. red; auto 6. Qed.

Lemma same_logging_trans w1 w2 w3 :
  same_logging w1 w2 -> same_logging w2 w3 -> same_logging w1 w3.
Proof.
  unfold same_logging. intros (A & B & C & D & E) (A' & B' & C' & D' & E').
  repeat split; congruence.
Qed.

Lemma same_logging_debug_handlers w w' :
  same_logging w w' -> debug_handlers w' = debug_handlers w.
Proof. intros (_ & H & _). unfold debug_handlers. now rewrite H. Qed.

(** The world after [send_request]: the logging setup is the one before;
    the stream gets the line of the decoded response, once per DEBUG
    handler, when the logger is at DEBUG, and nothing otherwise. *)
Lemma send_request_world self path jd m w :
  same_logging w (snd (send_request self path jd m w)) /\
  emitted (snd (send_request self path jd m w)) =
  match api_logger_level w, supportedb m, answer self path jd m w with
  | DEBUG, true, Returned response =>
      match json_body response with
      | Some body =>
          (emitted w ++ repeat (received_message response body) (debug_handlers w))%list
      | None => emitted w
      end
  | _, _, _ => emitted w
  end.
Proof.
  destruct (supportedb_spec m) as [Hm | Hm].
  2: { rewrite (send_request_unsupported self path jd m w Hm). cbn [snd].
       split; [apply same_logging_refl |]. destruct (api_logger_level w); reflexivity. }
  rewrite (send_request_run self path jd m w Hm). cbn zeta.
  set (w1 := snd (session_request (session self) (issued_call self path jd m) w)).
  assert (H1 : same_logging w w1) by (red; cbn; auto 6).
  assert (E1 : emitted w1 = emitted w) by reflexivity.
  assert (L1 : api_logger_level w1 = api_logger_level w) by reflexivity.
  assert (D1 : debug_handlers w1 = debug_handlers w) by reflexivity.
  destruct (answer self path jd m w) as [response | e].
  2: { cbn [snd]. split; [exact H1 |]. rewrite E1.
       destruct (api_logger_level w); reflexivity. }
  destruct (json_body response) as [body |].
  2: { cbn [snd]. split; [exact H1 |]. rewrite E1.
       destruct (api_logger_level w); reflexivity. }
  cbn [snd]. split.
  - eapply same_logging_trans; [exact H1 | apply api_logger_debug_keeps].
  - rewrite api_logger_debug_emitted, L1, D1, E1.
    destruct (api_logger_level w); reflexivity.
Qed.

(** X6: [send_request] never touches the logging setup (levels,
    handlers, [debuglevel]), whatever the method and the outcome, and it
    writes nothing to the diagnostic stream unless [api_logger] is at
    DEBUG. *)
Theorem send_request_keeps_logging_setup self path jd m w :
  same_logging w (snd (send_request self path jd m w)) /\
  (api_logger_level w <> DEBUG ->
   emitted (snd (send_request self path jd m w)) = emitted w).
Proof.
  destruct (send_request_world self path jd m w) as [H1 H2].
  split; [exact H1 |]. intros Hq. rewrite H2.
  destruct (api_logger_level w); [congruence | reflexivity ..].
Qed.

(** X7: the response is logged before its status is classified: with
    [api_logger] at DEBUG, every response whose body decodes, a 400, 403
    or 404 that ends in an exception included, adds its line to the
    stream once per DEBUG handler; a response that is not JSON and an
    exception of the transport add nothing. *)
Theorem send_request_logs_decoded_responses self path jd m w :
  supported m ->
  api_logger_level w = DEBUG ->
  (forall response body,
     answer self path jd m w = Returned response ->
     json_body response = Some body ->
     emitted (snd (send_request self path jd m w)) =
     (emitted w ++ repeat (received_message response body) (debug_handlers w))%list) /\
  (forall response,
     answer self path jd m w = Returned response ->
     json_body response = None ->
     emitted (snd (send_request self path jd m w)) = emitted w) /\
  (forall e,
     answer self path jd m w = Raised e ->
     emitted (snd (send_request self path jd m w)) = emitted w).
Proof.
  intros Hm Hl. destruct (send_request_world self path jd m w) as [_ H].
  rewrite Hl in H. destruct (supportedb_spec m) as [_ | Hn]; [| contradiction].
  repeat split.
  - intros response body Ha Hj. rewrite H, Ha, Hj. reflexivity.
  - intros response Ha Hj. rewrite H, Ha, Hj. reflexivity.
  - intros e Ha. rewrite H, Ha. reflexivity.
Qed.

(** *** Construction *)

Lemma can_access_api_snd self w :
  snd (can_access_api self w) = snd (send_request self "/version" JNull "GET" w).
Proof.
  unfold can_access_api, try_except_else, get_version, bind, ret, lift, raise.
  destruct (send_request self "/version" JNull "GET" w) as [[r | e] w']; cbn [fst snd];
    [| reflexivity].
  destruct (py_contains "version" (snd r)) as [[|] | e]; reflexivity.
Qed.

Lemma Connection_init_snd url0 verbose timeout0 verify_flag w :
  snd (Connection_init url0 verbose timeout0 verify_flag w) =
  snd (send_request
         {| api_url := url0; session := configure_requests verify_flag;
            timeout := timeout0 |}
         "/version" JNull "GET" (snd (set_verbose verbose w))).
Proof.
  rewrite <- can_access_api_snd.
  unfold Connection_init, bind, ret. cbn [set_verbose fst snd].
  match goal with
  | |- context [can_access_api ?c ?w1] => destruct (can_access_api c w1) as [[b | e] w2]
  end; reflexivity.
Qed.

Lemma is_debug_filter_app l h :
  List.length (filter is_debug (l ++ [h])) =
  (List.length (filter is_debug l) + (if is_debug h then 1 else 0))%nat.
Proof.
  rewrite filter_app, length_app. cbn [filter]. destruct (is_debug h); reflexivity.
Qed.

(** X8: when the transport answers the version call, construction has
    made exactly that one call, the GET of the version path joined to the
    base URL, without payload and with the timeout it was given, whether
    it then ends with a session or with an exception. *)
Theorem Connection_init_issues_version_call
    url0 verbose timeout0 verify_flag w response :
  handshake_reply url0 timeout0 verify_flag w = Returned response ->
  calls (snd (Connection_init url0 verbose timeout0 verify_flag w)) =
  (calls w ++
   [ {| verb := "GET"; url := urljoin url0 "/version"; data := None;
        call_timeout := timeout0 |} ])%list.
Proof.
  intros _. rewrite Connection_init_snd, send_request_calls by apply supported_GET.
  reflexivity.
Qed.

(** X9: the verbosity of a construction is written to the process, not
    to the session: whether construction succeeds or fails, [api_logger]
    and the loggers of the network stack are left at DEBUG or CRITICAL
    and [debuglevel] at 1 or 0 as [verbose] says, and one more handler of
    that level hangs on [api_logger], the earlier ones staying. *)
Theorem Connection_init_sets_process_logging url0 verbose timeout0 verify_flag w :
  let w' := snd (Connection_init url0 verbose timeout0 verify_flag w) in
  let level := if verbose then DEBUG else CRITICAL in
  api_logger_level w' = level /\
  api_logger_handlers w' = (api_logger_handlers w ++ [level])%list /\
  urllib3_log_level w' = level /\
  requests_log_level w' = level /\
  debuglevel w' = (if verbose then 1 else 0).
Proof.
  cbn zeta. rewrite Connection_init_snd.
  match goal with
  | |- context [send_request ?c ?p ?j ?m ?w1] =>
      destruct (send_request_world c p j m w1) as [(A & B & C & D & E) _]
  end.
  rewrite A, B, C, D, E. cbn. auto.
Qed.

(** X10: a quiet construction silences every session of the process:
    after [Connection(..., verbose=False)], returned or raised, no
    [send_request], on whatever connection, writes to the stream. *)
Theorem quiet_construction_silences_requests
    url0 timeout0 verify_flag w self path jd m :
  let w1 := snd (Connection_init url0 false timeout0 verify_flag w) in
  emitted (snd (send_request self path jd m w1)) = emitted w1.
Proof.
  cbn zeta.
  match goal with
  | |- context [send_request self path jd m ?w1] =>
      destruct (send_request_world self path jd m w1) as [_ H];
      assert (L : api_logger_level w1 = CRITICAL)
  end.
  { rewrite Connection_init_snd.
    match goal with
    | |- context [send_request ?c ?p ?j ?m ?w1] =>
        destruct (send_request_world c p j m w1) as [(A & _) _]
    end.
    rewrite A. reflexivity. }
  rewrite H, L. reflexivity.
Qed.

(** X11: handlers pile up: after a verbose construction in a process
    whose [api_logger] already had [k] DEBUG handlers, each decoded
    response is written [k + 1] times. *)
Theorem verbose_construction_repeats_lines
    url0 timeout0 verify_flag w self path jd m response body :
  let w1 := snd (Connection_init url0 true timeout0 verify_flag w) in
  supported m ->
  answer self path jd m w1 = Returned response ->
  json_body response = Some body ->
  emitted (snd (send_request self path jd m w1)) =
  (emitted w1 ++ repeat (received_message response body) (S (debug_handlers w)))%list.
Proof.
  cbn zeta. intros Hm Ha Hj.
  match goal with
  | |- context [send_request self path jd m ?w1] =>
      destruct (send_request_world self path jd m w1) as [_ H];
      assert (L : api_logger_level w1 = DEBUG /\
                  debug_handlers w1 = S (debug_handlers w))
  end.
  { rewrite Connection_init_snd.
    match goal with
    | |- context [send_request ?c ?p ?j ?m ?w1] =>
        destruct (send_request_world c p j m w1) as [S1 _]
    end.
    rewrite (same_logging_debug_handlers _ _ S1).
    destruct S1 as (A & _). rewrite A. split; [reflexivity |].
    unfold debug_handlers. cbn [set_verbose snd api_logger_handlers].
    rewrite is_debug_filter_app. cbn. lia. }
  destruct L as [L D]. rewrite H, L, Ha, Hj, D.
  destruct (supportedb_spec m); [reflexivity | contradiction].
Qed.

(** What construction yields when the version request raised. *)
Lemma Connection_init_wraps url0 verbose timeout0 verify_flag w e :
  fst (send_request
         {| api_url := url0; session := configure_requests verify_flag;
            timeout := timeout0 |}
         "/version" JNull "GET" (snd (set_verbose verbose w))) = Raised e ->
  fst (Connection_init url0 verbose timeout0 verify_flag w) =
    Raised (APIException (JStr (connect_message e))) /\
  occurs_in (exc_str e) (connect_message e).
Proof.
  intros He. rewrite Connection_init_fst, can_access_api_fst. cbn zeta. rewrite He.
  split; [reflexivity |]. unfold connect_message. apply py_format_shows; cbn; auto.
Qed.

(** What construction yields when the version request returned. *)
Lemma Connection_init_tests url0 verbose timeout0 verify_flag w response body :
  handshake_reply url0 timeout0 verify_flag w = Returned response ->
  json_body response = Some body ->
  mapped (status_code response) = false ->
  fst (Connection_init url0 verbose timeout0 verify_flag w) =
  match py_contains "version" body with
  | Returned true =>
      Returned {| api_url := url0; session := configure_requests verify_flag;
                  timeout := timeout0 |}
  | Returned false =>
      Raised (APIException (JStr "Unexpected HTTP response when connecting to REST API"))
  | Raised e => Raised e
  end.
Proof.
  intros Ha Hj Hc. rewrite <- (handshake_answer url0 verbose timeout0 verify_flag w) in Ha.
  rewrite Connection_init_fst, can_access_api_fst. cbn zeta.
  destruct (send_request_passes _ _ _ _ _ _ _ supported_GET Ha Hj Hc) as (w' & -> & _).
  cbn [fst snd]. destruct (py_contains "version" body) as [[|] | e]; reflexivity.
Qed.

(** X12: a refusal of the remote end at the version path reaches the
    caller of the constructor with its text: for a 400, 403 or 404 whose
    body is an object with a string [message], construction raises
    APIException and the message holds that string. *)
Theorem Connection_init_reports_remote_message
    url0 verbose timeout0 verify_flag w response items s :
  handshake_reply url0 timeout0 verify_flag w = Returned response ->
  status_code response = 400 \/ status_code response = 403 \/
    status_code response = 404 ->
  json_body response = Some (JDict items) ->
  dict_lookup "message" items = Some (JStr s) ->
  exists msg,
    fst (Connection_init url0 verbose timeout0 verify_flag w) =
      Raised (APIException (JStr msg)) /\
    occurs_in s msg.
Proof.
  intros Ha Hc Hj Hl. apply mapped_cases in Hc.
  rewrite <- (handshake_answer url0 verbose timeout0 verify_flag w) in Ha.
  destruct (mapped_class _ Hc) as (klass & Hk & Hcode).
  destruct (send_request_mapped_message _ _ _ _ _ _ _ (JStr s) klass
              supported_GET Ha Hj Hc Hk Hl) as (w' & He & _); [discriminate |].
  apply (f_equal fst) in He. cbn [fst] in He.
  destruct (Connection_init_wraps url0 verbose timeout0 verify_flag w _ He) as [-> Ho].
  eexists. split; [reflexivity |].
  destruct Hcode as [[_ ->] | [[_ ->] | [_ ->]]]; exact Ho.
Qed.

(** X13: when the version path answers with something that is not JSON,
    the error of the constructor still tells where to report it and how
    the body starts: its message holds the issue tracking URL and the
    rendering of the first 20 bytes. *)
Theorem Connection_init_reports_non_json
    url0 verbose timeout0 verify_flag w response :
  handshake_reply url0 timeout0 verify_flag w = Returned response ->
  json_body response = None ->
  exists msg,
    fst (Connection_init url0 verbose timeout0 verify_flag w) =
      Raised (APIException (JStr msg)) /\
    occurs_in ISSUE_URL msg /\
    occurs_in (bytes_str PY3 (firstn 20 (content response))) msg.
Proof.
  intros Ha Hj.
  rewrite <- (handshake_answer url0 verbose timeout0 verify_flag w) in Ha.
  destruct (send_request_not_json _ _ _ _ _ _ supported_GET Ha Hj) as (w' & He & _).
  apply (f_equal fst) in He. cbn [fst] in He.
  destruct (Connection_init_wraps url0 verbose timeout0 verify_flag w _ He) as [-> Ho].
  cbn [exc_str py_str] in Ho.
  eexists. split; [reflexivity |].
  split; (eapply occurs_in_trans; [| exact Ho]);
    unfold not_json_message; apply py_format_shows; cbn; auto.
Qed.

(** X14: the test of [version] stands outside the [try]: when the
    version path answers, with a status that is not mapped, a JSON number,
    boolean or null, the TypeError of [in] leaves the constructor as it
    is, not wrapped in APIException. *)
Theorem Connection_init_scalar_body_escapes
    url0 verbose timeout0 verify_flag w response body :
  handshake_reply url0 timeout0 verify_flag w = Returned response ->
  json_body response = Some body ->
  status_code response <> 400 ->
  status_code response <> 403 ->
  status_code response <> 404 ->
  ~ container body ->
  fst (Connection_init url0 verbose timeout0 verify_flag w) =
    Raised (TypeError ("argument of type '" ++ type_name body ++ "' is not iterable")).
Proof.
  intros Ha Hj H1 H2 H3 Hb.
  rewrite (Connection_init_tests url0 verbose timeout0 verify_flag w response body Ha Hj)
    by auto using not_mapped.
  destruct body; cbn in Hb; try reflexivity; contradiction.
Qed.

(** X15: the test of [version] is Python's [in]: under a status that is
    not mapped, a string body gives a session exactly when it has
    [version] as a substring, and a list body exactly when the string
    [version] is one of its elements. *)
Theorem Connection_init_in_on_strings_and_lists
    url0 verbose timeout0 verify_flag w response :
  handshake_reply url0 timeout0 verify_flag w = Returned response ->
  mapped (status_code response) = false ->
  let self := {| api_url := url0; session := configure_requests verify_flag;
                 timeout := timeout0 |} in
  (forall s,
     json_body response = Some (JStr s) ->
     (fst (Connection_init url0 verbose timeout0 verify_flag w) = Returned self
      <-> occurs_in "version" s)) /\
  (forall xs,
     json_body response = Some (JList xs) ->
     (fst (Connection_init url0 verbose timeout0 verify_flag w) = Returned self
      <-> In (JStr "version") xs)).
Proof.
  intros Ha Hc. cbn zeta. split.
  - intros s Hj.
    rewrite (Connection_init_tests url0 verbose timeout0 verify_flag w response _ Ha Hj Hc).
    cbn [py_contains]. rewrite <- str_in_occurs.
    destruct (str_in "version" s); split; congruence.
  - intros xs Hj.
    rewrite (Connection_init_tests url0 verbose timeout0 verify_flag w response _ Ha Hj Hc).
    cbn [py_contains].
    assert (Hx : existsb (py_eq_str "version") xs = true <-> In (JStr "version") xs).
    { rewrite existsb_exists. split.
      - intros (x & Hin & Hx). destruct x; try discriminate Hx.
        unfold py_eq_str in Hx. apply String.eqb_eq in Hx. now subst.
      - intros Hin. exists (JStr "version"). split; [exact Hin | reflexivity]. }
    rewrite <- Hx. destruct (existsb (py_eq_str "version") xs); split; congruence.
Qed.

(** X16: [can_access_api] has no False: when it returns, it returns
    True, and then the version path answered with a decoded body for which
    ['version' in body] holds. *)
Theorem can_access_api_returns_only_true self w b :
  fst (can_access_api self w) = Returned b ->
  b = true /\
  exists response body,
    answer self "/version" JNull "GET" w = Returned response /\
    json_body response = Some body /\
    py_contains "version" body = Returned true.
Proof.
  rewrite can_access_api_fst. intros Hb.
  destruct (fst (send_request self "/version" JNull "GET" w)) as [r | e] eqn:Hs;
    [| discriminate].
  destruct (send_request_returned_inv self "/version" JNull "GET" w r supported_GET Hs)
    as (response & Ha & Hj & _).
  destruct (py_contains "version" (snd r)) as [[|] | e] eqn:Hv; try discriminate.
  injection Hb as <-. split; [reflexivity |]. eauto.
Qed.

(** *** The listing, the other way round *)

Lemma get_scans_snd self w :
  snd (get_scans self w) = snd (send_request self "/scans/" JNull "GET" w).
Proof.
  unfold get_scans, bind, lift, raise.
  destruct (send_request self "/scans/" JNull "GET" w) as [[r | e] w']; cbn [fst snd];
    [| reflexivity].
  destruct (negb (fst r =? 200)); [reflexivity |].
  destruct (py_get (snd r) "items") as [scans | e]; [| reflexivity].
  destruct scans; try reflexivity;
    match goal with
    | |- context [py_iter ?v] => destruct (py_iter v); reflexivity
    end.
Qed.

Lemma py_getitem_returned obj key v :
  py_getitem obj key = Returned v ->
  exists fields, obj = JDict fields /\ dict_lookup key fields = Some v.
Proof.
  destruct obj; cbn; try discriminate.
  destruct (dict_lookup key items) eqn:E; [| discriminate].
  intros H. injection H as <-. eauto.
Qed.

Lemma build_scans_returned self xs :
  forall acc out,
    build_scans self xs acc = Returned out ->
    exists handles, out = (acc ++ handles)%list /\ Forall2 (describes self) xs handles.
Proof.
  induction xs as [| x xs IH]; intros acc out H; cbn [build_scans] in H.
  - injection H as <-. exists []. split; [now rewrite app_nil_r | constructor].
  - destruct (py_getitem x "id") as [i |] eqn:Hi; [| discriminate].
    destruct (py_getitem x "status") as [st |] eqn:Hs; [| discriminate].
    destruct (IH _ _ H) as (handles & -> & Hd).
    exists ({| scan_conn := self; scan_id := i; scan_status := st |} :: handles).
    split; [now rewrite <- app_assoc |].
    constructor; [| exact Hd].
    destruct (py_getitem_returned _ _ _ Hi) as (fields & -> & Hfi).
    destruct (py_getitem_returned _ _ _ Hs) as (fields' & E & Hfs).
    injection E as <-. exists fields. cbn. auto.
Qed.

Lemma build_scans_app self good hs rest acc :
  Forall2 (describes self) good hs ->
  build_scans self (good ++ rest) acc = build_scans self rest (acc ++ hs)%list.
Proof.
  intros H. revert acc.
  induction H as [| d h good hs (fields & -> & Hid & Hst & Hc) _ IH]; intros acc.
  - cbn. now rewrite app_nil_r.
  - cbn [app build_scans py_getitem]. rewrite Hid, Hst, IH, <- app_assoc. cbn [app].
    destruct h as [c i st]. cbn in *. now subst.
Qed.

(** X17: every handle [get_scans] returns comes from a descriptor:
    when it returns, the listing call answered 200 with an object whose
    [items] is not null, and the handles match, one to one and in order,
    the elements iterated from [items], each an object holding the [id]
    and the [status] of its handle; every handle refers to the session
    itself. *)
Theorem get_scans_handles_origin self w handles :
  fst (get_scans self w) = Returned handles ->
  exists response fields scans xs,
    answer self "/scans/" JNull "GET" w = Returned response /\
    status_code response = 200 /\
    json_body response = Some (JDict fields) /\
    dict_lookup "items" fields = Some scans /\
    scans <> JNull /\
    py_iter scans = Returned xs /\
    Forall2 (describes self) xs handles /\
    Forall (fun h => scan_conn h = self) handles.
Proof.
  rewrite get_scans_fst. intros H.
  destruct (fst (send_request self "/scans/" JNull "GET" w)) as [r | e] eqn:Hs;
    [| discriminate].
  destruct (send_request_returned_inv self "/scans/" JNull "GET" w r supported_GET Hs)
    as (response & Ha & Hj & _ & Hc).
  destruct (Z.eqb_spec (fst r) 200) as [E | _]; [| discriminate]. cbn [negb] in H.
  destruct (snd r) as [| b | n | x | s | ys | fields]; try discriminate.
  cbn [py_get] in H.
  destruct (dict_lookup "items" fields) as [scans |] eqn:Hl; [| discriminate].
  assert (Hn : scans <> JNull) by (intros ->; discriminate).
  assert (Hb : match py_iter scans with
               | Returned xs => build_scans self xs []
               | Raised e => Raised e
               end = Returned handles) by (destruct scans; congruence).
  destruct (py_iter scans) as [xs | e] eqn:Hi; [| discriminate].
  destruct (build_scans_returned self xs [] handles Hb) as (hs & -> & Hd).
  exists response, fields, scans, xs. cbn [app].
  repeat split; auto; try congruence.
  clear - Hd. induction Hd as [| d h ds hs (f & _ & _ & _ & Hc) _ IH]; constructor; auto.
Qed.

(** X18: a descriptor without [id], or with [id] and without [status],
    ends the listing with KeyError, not with APIException, however many
    well-formed descriptors came before it: no partial list is returned. *)
Theorem get_scans_descriptor_missing_key self w response fields good hs bad rest :
  answer self "/scans/" JNull "GET" w = Returned response ->
  status_code response = 200 ->
  json_body response = Some (JDict fields) ->
  dict_lookup "items" fields = Some (JList (good ++ JDict bad :: rest)) ->
  Forall2 (describes self) good hs ->
  (dict_lookup "id" bad = None ->
   fst (get_scans self w) = Raised (KeyError "id")) /\
  (forall i, dict_lookup "id" bad = Some i -> dict_lookup "status" bad = None ->
   fst (get_scans self w) = Raised (KeyError "status")).
Proof.
  intros Ha Hc Hj Hl Hg.
  assert (Hrun : fst (get_scans self w) = build_scans self (JDict bad :: rest) hs).
  { rewrite get_scans_fst.
    destruct (send_request_passes self "/scans/" JNull "GET" w response (JDict fields))
      as (w' & -> & _); auto using supported_GET.
    { rewrite Hc. reflexivity. }
    cbn [fst snd py_get]. rewrite Hc, Hl. cbn [Z.eqb Pos.eqb negb py_iter].
    now rewrite (build_scans_app self good hs _ [] Hg). }
  rewrite Hrun. split.
  - intros Hi. cbn [build_scans py_getitem]. now rewrite Hi.
  - intros i Hi Hs. cbn [build_scans py_getitem]. now rewrite Hi, Hs.
Qed.

(** X19: [items] bound to null counts as [items] missing: on a 200
    object body it raises the same APIException. *)
Theorem get_scans_null_items self w response fields :
  answer self "/scans/" JNull "GET" w = Returned response ->
  status_code response = 200 ->
  json_body response = Some (JDict fields) ->
  dict_lookup "items" fields = Some JNull ->
  fst (get_scans self w) =
    Raised (APIException
              (JStr ("Failed to retrieve scans, no " ++ dq ++ "items" ++ dq
                     ++ " in JSON."))).
Proof.
  intros Ha Hc Hj Hl. rewrite get_scans_fst.
  destruct (send_request_passes self "/scans/" JNull "GET" w response (JDict fields))
    as (w' & -> & _); auto using supported_GET.
  { rewrite Hc. reflexivity. }
  cbn [fst snd py_get]. rewrite Hc, Hl. reflexivity.
Qed.

(** X20: [items] that is neither a list nor null never yields a handle:
    an empty object and an empty string give the empty list, any other
    object, string, number or boolean ends in TypeError. *)
Theorem get_scans_items_not_a_list self w response fields scans :
  answer self "/scans/" JNull "GET" w = Returned response ->
  status_code response = 200 ->
  json_body response = Some (JDict fields) ->
  dict_lookup "items" fields = Some scans ->
  scans <> JNull ->
  (forall ds, scans <> JList ds) ->
  (scans = JDict [] \/ scans = JStr EmptyString ->
   fst (get_scans self w) = Returned []) /\
  (scans <> JDict [] -> scans <> JStr EmptyString ->
   exists text, fst (get_scans self w) = Raised (TypeError text)).
Proof.
  intros Ha Hc Hj Hl Hn Hd.
  assert (Hrun : fst (get_scans self w) =
                 match py_iter scans with
                 | Returned xs => build_scans self xs []
                 | Raised e => Raised e
                 end).
  { rewrite get_scans_fst.
    destruct (send_request_passes self "/scans/" JNull "GET" w response (JDict fields))
      as (w' & -> & _); auto using supported_GET.
    { rewrite Hc. reflexivity. }
    cbn [fst snd py_get]. rewrite Hc, Hl. cbn [Z.eqb Pos.eqb negb].
    destruct scans; congruence. }
  rewrite Hrun. split.
  - intros [-> | ->]; reflexivity.
  - intros H1 H2.
    destruct scans as [| b | n | x | s | xs | items];
      [ congruence | eexists; reflexivity | eexists; reflexivity
      | eexists; reflexivity | | exfalso; eapply Hd; reflexivity | ].
    + destruct s as [| c s]; [congruence | eexists; reflexivity].
    + destruct items as [| [k v] items]; [congruence | eexists; reflexivity].
Qed.

(** X21: construction then listing: on the session a construction
    returned, [get_scans] makes one more call, the GET of the listing path
    on the same base URL with the same timeout, so that the history holds
    the version call and then the listing call. *)
Theorem construction_then_listing_calls url0 verbose timeout0 verify_flag w c :
  fst (Connection_init url0 verbose timeout0 verify_flag w) = Returned c ->
  calls (snd (get_scans c (snd (Connection_init url0 verbose timeout0 verify_flag w)))) =
  (calls w ++
   [ {| verb := "GET"; url := urljoin url0 "/version"; data := None;
        call_timeout := timeout0 |};
     {| verb := "GET"; url := urljoin url0 "/scans/"; data := None;
        call_timeout := timeout0 |} ])%list.
Proof.
  intros Hc. rewrite Connection_init_fst in Hc. cbn zeta in Hc.
  assert (c = {| api_url := url0; session := configure_requests verify_flag;
                 timeout := timeout0 |}) as ->.
  { destruct (fst (can_access_api _ _)); congruence. }
  rewrite get_scans_snd, send_request_calls by apply supported_GET.
  rewrite Connection_init_snd, send_request_calls by apply supported_GET.
  cbn [set_verbose snd calls]. rewrite <- app_assoc. reflexivity.
Qed.

(** *** The size of the excerpt *)

Lemma length_append_str a b :
  String.length (a ++ b) = (String.length a + String.length b)%nat.
Proof. induction a; cbn; congruence. Qed.

Lemma length_string_of_list_ascii cs :
  String.length (string_of_list_ascii cs) = List.length cs.
Proof. induction cs; cbn; congruence. Qed.

Lemma length_repr_byte quote c : (String.length (repr_byte quote c) <= 4)%nat.
Proof.
  unfold repr_byte.
  repeat match goal with
         | |- context [if ?b then _ else _] => destruct b
         end; cbn; lia.
Qed.

Lemma length_concat_repr quote cs :
  (String.length (String.concat EmptyString (map (repr_byte quote) cs))
   <= 4 * List.length cs)%nat.
Proof.
  induction cs as [| c cs IH]; [cbn; lia |].
  pose proof (length_repr_byte quote c) as Hc.
  destruct cs as [| c' cs'].
  - cbn [map String.concat List.length]. lia.
  - change (String.concat EmptyString (map (repr_byte quote) (c :: c' :: cs')))
      with (repr_byte quote c ++ EmptyString ++
            String.concat EmptyString (map (repr_byte quote) (c' :: cs'))).
    rewrite !length_append_str. cbn [String.length List.length] in *. lia.
Qed.

Lemma length_bytes_str py3 b :
  (String.length (bytes_str py3 b) <= if py3 then 4 * List.length b + 3 else List.length b)%nat.
Proof.
  destruct py3; cbn [bytes_str].
  - unfold bytes_repr. cbn [String.length]. rewrite length_append_str.
    match goal with
    | |- context [String.concat EmptyString (map (repr_byte ?q) ?cs)] =>
        pose proof (length_concat_repr q cs) as H
    end.
    rewrite length_map in H. cbn [String.length]. lia.
  - unfold string_of_list_byte. rewrite length_string_of_list_ascii, length_map. lia.
Qed.

(** X22: the error for a body that is not JSON stays small whatever the
    size of the body: beyond the issue tracking URL its message has 155
    characters of text and an excerpt of at most 20 characters under
    Python 2 and at most 83 under Python 3, where a byte takes up to four
    characters inside [b'...']. *)
Theorem send_request_not_json_message_bounded self path jd m w response :
  supported m ->
  answer self path jd m w = Returned response ->
  json_body response = None ->
  exists msg,
    fst (send_request self path jd m w) = Raised (APIException (JStr msg)) /\
    (String.length msg <=
     String.length ISSUE_URL + 155 + (if PY3 then 83 else 20))%nat.
Proof.
  intros Hm Ha Hj.
  destruct (send_request_not_json self path jd m w response Hm Ha Hj) as (w' & -> & _).
  eexists. split; [reflexivity |]. unfold not_json_message.
  set (x := bytes_str PY3 (firstn 20 (content response))).
  change (py_format _ [ISSUE_URL; x])
    with (("REST API service did not return JSON, if this issue"
           ++ " persists please create an issue in the w3af framework"
           ++ " repository at ")
          ++ ISSUE_URL
          ++ (". The response body starts with: " ++ dq)
          ++ x ++ dq).
  rewrite !length_append_str.
  pose proof (length_bytes_str PY3 (firstn 20 (content response))) as Hx.
  pose proof (firstn_le_length 20 (content response)) as Hf.
  fold x in Hx. cbn [String.length append dq] in *.
  destruct PY3; lia.
Qed.

End Client.

(** ** Runs against the stub service *)

Example py_format_two_directives :
  py_format "code %s at %s" ["404"; "/scans/"] = "code 404 at /scans/".
Proof. reflexivity. Qed.

Example str_int_status : str_int 404 = "404" /\ str_int 0 = "0".
Proof. split; reflexivity. Qed.

Example bytes_repr_apostrophe :
  bytes_repr (list_byte_of_string "it's") = "b" ++ dq ++ "it's" ++ dq.
Proof. reflexivity. Qed.

Example bytes_repr_escapes :
  bytes_repr [x00; x41; xff; x0a] =
  "b'" ++ String bs_char "x00A" ++ String bs_char "xff" ++ String bs_char "n'".
Proof. reflexivity. Qed.

Example contains_version_examples :
  py_contains "version" (JDict [("branch", JStr "develop"); ("version", JStr "1.7.2")])
    = Returned true /\
  py_contains "version" (JList [JStr "version"]) = Returned true /\
  py_contains "version" (JStr "no such thing") = Returned false /\
  py_contains "version" (JInt 5)
    = Raised (TypeError "argument of type 'int' is not iterable").
Proof. repeat split; reflexivity. Qed.

Local Abbreviation send py3 remote :=
  (send_request py3 Stub.ISSUE_URL Stub.urljoin Stub.json_dumps remote).
Local Abbreviation access py3 remote :=
  (can_access_api py3 Stub.ISSUE_URL Stub.urljoin Stub.json_dumps Stub.py_repr remote).
Local Abbreviation connect py3 remote :=
  (Connection_init py3 Stub.ISSUE_URL Stub.VERSION Stub.urljoin Stub.json_dumps
     Stub.py_repr remote).
Local Abbreviation scans py3 remote :=
  (get_scans py3 Stub.ISSUE_URL Stub.urljoin Stub.json_dumps remote).
Local Abbreviation serving r := (Stub.always (Returned r)).

(** The session [configure_requests] builds is the one of [Stub.conn]. *)
Example stub_session :
  configure_requests Stub.VERSION true = session Stub.conn.
Proof. reflexivity. Qed.

(** Scenario 3 of the spec: 404 with [{"message": "Scan not found"}]. *)
Lemma send_request_raises_mapped_kind_witness :
  fst (send true (serving (Stub.reply 404 (JDict [("message", JStr "Scan not found")])))
         Stub.conn "/scans/7/" JNull "GET" Stub.fresh)
  = Raised (NotFoundException (JStr "Scan not found")).
Proof.
  destruct (send_request_raises_mapped_kind true Stub.ISSUE_URL Stub.urljoin
              Stub.json_dumps
              (serving (Stub.reply 404 (JDict [("message", JStr "Scan not found")])))
              Stub.conn "/scans/7/" JNull "GET" Stub.fresh
              (Stub.reply 404 (JDict [("message", JStr "Scan not found")]))
              [("message", JStr "Scan not found")] (JStr "Scan not found"))
    as (_ & _ & H).
  - red; auto.
  - reflexivity.
  - reflexivity.
  - reflexivity.
  - discriminate.
  - apply H. reflexivity.
Defined.

(** C1 as stated fails when [message] is there and bound to null: with
    status 400 the error is not BadRequestException built from the value
    of the field, it is an APIException. *)
Lemma mapped_kind_null_message_counterexample :
  dict_lookup "message" [("message", JNull)] = Some JNull /\
  fst (send true (serving (Stub.reply 400 (JDict [("message", JNull)])))
         Stub.conn "/scans/" JNull "GET" Stub.fresh)
    <> Raised (BadRequestException JNull) /\
  exists msg,
    fst (send true (serving (Stub.reply 400 (JDict [("message", JNull)])))
           Stub.conn "/scans/" JNull "GET" Stub.fresh)
    = Raised (APIException (JStr msg)).
Proof.
  split; [reflexivity |]. split.
  - vm_compute. discriminate.
  - eexists. vm_compute. reflexivity.
Qed.

(** Scenario 4 of the spec: an unmapped 500 comes back to the caller. *)
Lemma send_request_returns_status_and_body_witness :
  fst (send true (serving (Stub.reply 500 (JDict [("error", JStr "boom")])))
         Stub.conn "/scans/" (JDict [("target", JStr "http://t/")]) "POST" Stub.fresh)
  = Returned (500, JDict [("error", JStr "boom")]).
Proof.
  apply (send_request_returns_status_and_body true Stub.ISSUE_URL Stub.urljoin
           Stub.json_dumps
           (serving (Stub.reply 500 (JDict [("error", JStr "boom")])))
           Stub.conn "/scans/" (JDict [("target", JStr "http://t/")]) "POST" Stub.fresh
           (Stub.reply 500 (JDict [("error", JStr "boom")]))).
  - red; auto.
  - reflexivity.
  - reflexivity.
  - discriminate.
  - discriminate.
  - discriminate.
Defined.

Lemma send_request_missing_message_is_generic_witness :
  exists msg,
    fst (send true (serving (Stub.reply 403 (JDict [("code", JInt 403)])))
           Stub.conn "/scans/" JNull "DELETE" Stub.fresh)
    = Raised (APIException (JStr msg)) /\
    occurs_in "403" msg /\
    occurs_in (Stub.dumps (JDict [("code", JInt 403)])) msg.
Proof.
  apply (send_request_missing_message_is_generic true Stub.ISSUE_URL Stub.urljoin
           Stub.json_dumps
           (serving (Stub.reply 403 (JDict [("code", JInt 403)])))
           Stub.conn "/scans/" JNull "DELETE" Stub.fresh
           (Stub.reply 403 (JDict [("code", JInt 403)])) [("code", JInt 403)]).
  - red; auto.
  - reflexivity.
  - reflexivity.
  - right; left; reflexivity.
  - reflexivity.
Defined.

(** C5 as stated fails on a body that has no [message] because it is
    not an object: with status 404 and the empty list, [.get] is missing
    and AttributeError leaves [send_request], not APIException. *)
Lemma missing_message_list_body_counterexample :
  json_body (Stub.reply 404 (JList [])) = Some (JList []) /\
  fst (send true (serving (Stub.reply 404 (JList []))) Stub.conn "/scans/7/" JNull "GET"
         Stub.fresh)
  = Raised (AttributeError "'list' object has no attribute 'get'") /\
  forall arg,
    fst (send true (serving (Stub.reply 404 (JList []))) Stub.conn "/scans/7/" JNull
           "GET" Stub.fresh)
    <> Raised (APIException arg).
Proof.
  split; [reflexivity |]. split; [reflexivity |].
  intros arg. vm_compute. discriminate.
Qed.

Lemma send_request_body_not_json_witness :
  exists msg,
    fst (send true (serving (Stub.garbage 200 "<html>502 Bad Gateway</html>"))
           Stub.conn "/version" JNull "GET" Stub.fresh)
    = Raised (APIException (JStr msg)) /\
    occurs_in Stub.ISSUE_URL msg /\
    occurs_in "b'<html>502 Bad Gatewa'" msg /\
    occurs_in "<html>502 Bad Gatewa" msg.
Proof.
  destruct (send_request_body_not_json true Stub.ISSUE_URL Stub.urljoin
              Stub.json_dumps
              (serving (Stub.garbage 200 "<html>502 Bad Gateway</html>"))
              Stub.conn "/version" JNull "GET" Stub.fresh
              (Stub.garbage 200 "<html>502 Bad Gateway</html>"))
    as (msg & H1 & H2 & H3 & H4).
  - red; auto.
  - reflexivity.
  - reflexivity.
  - exists msg. split; [exact H1 |]. split; [exact H2 |]. split; [exact H3 |].
    apply H4. right. reflexivity.
Defined.

(** C6 as stated fails under Python 3 when one of the first 20 bytes is
    not copied by the literal form: for the body [oops] followed by a
    line feed the message holds [b'oops\n'] with a backslash and an [n],
    not the five bytes of the body. *)
Lemma body_not_json_raw_bytes_counterexample :
  exists msg,
    fst (send true (serving (Stub.garbage 200 ("oops" ++ nl)))
           Stub.conn "/version" JNull "GET" Stub.fresh)
    = Raised (APIException (JStr msg)) /\
    occurs_in (String "b" (String sq_char ("oops" ++ String bs_char "n"
                 ++ String sq_char EmptyString))) msg /\
    ~ occurs_in (string_of_list_byte
                   (firstn 20 (content (Stub.garbage 200 ("oops" ++ nl))))) msg.
Proof.
  eexists. split; [vm_compute; reflexivity |]. split.
  - apply str_in_occurs. vm_compute. reflexivity.
  - rewrite <- str_in_occurs. vm_compute. discriminate.
Qed.

Lemma send_request_rejects_method_witness :
  fst (send true (serving (Stub.reply 200 (JDict []))) Stub.conn "/scans/" JNull "PUT"
         Stub.fresh)
  = Raised (ValueError ("Invalid HTTP method: " ++ dq ++ "PUT" ++ dq)) /\
  snd (send true (serving (Stub.reply 200 (JDict []))) Stub.conn "/scans/" JNull "PUT"
         Stub.fresh)
  = Stub.fresh /\
  calls (snd (send true (serving (Stub.reply 200 (JDict []))) Stub.conn "/scans/" JNull
                "PUT" Stub.fresh))
  = calls Stub.fresh.
Proof.
  apply (send_request_rejects_method true Stub.ISSUE_URL Stub.urljoin Stub.json_dumps
           (serving (Stub.reply 200 (JDict []))) Stub.conn "/scans/" JNull "PUT"
           Stub.fresh); discriminate.
Defined.

Lemma send_request_null_message_is_generic_witness :
  exists msg,
    fst (send true (serving (Stub.reply 404 (JDict [("message", JNull)])))
           Stub.conn "/scans/7/" JNull "GET" Stub.fresh)
    = Raised (APIException (JStr msg)).
Proof.
  destruct (send_request_null_message_is_generic true Stub.ISSUE_URL Stub.urljoin
              Stub.json_dumps
              (serving (Stub.reply 404 (JDict [("message", JNull)])))
              Stub.conn "/scans/7/" JNull "GET" Stub.fresh
              (Stub.reply 404 (JDict [("message", JNull)])) [("message", JNull)])
    as (H & _).
  - red; auto.
  - reflexivity.
  - reflexivity.
  - right; right; reflexivity.
  - reflexivity.
  - eexists. exact H.
Defined.

Lemma send_request_ignores_body_witness :
  send true (serving (Stub.reply 200 (JDict [("message", JStr "Success")])))
    Stub.conn "/scans/7/" (JDict [("force", JBool true)]) "DELETE" Stub.fresh
  = send true (serving (Stub.reply 200 (JDict [("message", JStr "Success")])))
      Stub.conn "/scans/7/" JNull "DELETE" Stub.fresh.
Proof.
  destruct (send_request_ignores_body true Stub.ISSUE_URL Stub.urljoin Stub.json_dumps
              (serving (Stub.reply 200 (JDict [("message", JStr "Success")])))
              Stub.conn "/scans/7/" (JDict [("force", JBool true)]) JNull "DELETE"
              Stub.fresh)
    as (H & _).
  - right; reflexivity.
  - exact H.
Defined.

Lemma transport_exception_propagates_witness :
  fst (send true (Stub.always Stub.refused) Stub.conn "/scans/" JNull "GET" Stub.fresh)
  = Raised (RequestException "ConnectionError" "Connection refused") /\
  exists msg,
    fst (access true (Stub.always Stub.refused) Stub.conn Stub.fresh)
    = Raised (APIException (JStr msg)) /\
    occurs_in "Connection refused" msg.
Proof.
  destruct (transport_exception_propagates true Stub.ISSUE_URL Stub.urljoin
              Stub.json_dumps Stub.py_repr (Stub.always Stub.refused)
              Stub.conn "/scans/" JNull "GET" Stub.fresh
              (RequestException "ConnectionError" "Connection refused"))
    as (H1 & H2).
  split.
  - apply H1; [red; auto | reflexivity].
  - apply H2. reflexivity.
Defined.

(** C3 as stated fails: when the transport refuses the connection,
    what leaves [send_request] is the exception of the transport, not an
    APIException. *)
Lemma transport_exception_unwrapped_counterexample :
  fst (send true (Stub.always Stub.refused) Stub.conn "/scans/" JNull "GET" Stub.fresh)
  = Raised (RequestException "ConnectionError" "Connection refused") /\
  forall arg,
    fst (send true (Stub.always Stub.refused) Stub.conn "/scans/" JNull "GET" Stub.fresh)
    <> Raised (APIException arg).
Proof.
  split; [reflexivity |]. intros arg. vm_compute. discriminate.
Qed.

(** Scenario 1 of the spec: [{"version": "1.7.2"}] at the version path. *)
Lemma Connection_init_handshake_witness :
  fst (connect true (serving (Stub.reply 200 (JDict [("version", JStr "1.7.2")])))
         "http://127.0.0.1:5000" false 5 true Stub.fresh)
  = Returned Stub.conn.
Proof.
  destruct (Connection_init_handshake true Stub.ISSUE_URL Stub.VERSION Stub.urljoin
              Stub.json_dumps Stub.py_repr
              (serving (Stub.reply 200 (JDict [("version", JStr "1.7.2")])))
              "http://127.0.0.1:5000" false 5 true Stub.fresh)
    as (_ & H & _).
  apply H.
  exists (Stub.reply 200 (JDict [("version", JStr "1.7.2")])),
         (JDict [("version", JStr "1.7.2")]).
  repeat split; reflexivity.
Defined.

(** C2 as stated fails: the handshake does not look at the status code
    beyond 400, 403 and 404, so a 500 whose body holds [version] gives
    a session. *)
Lemma handshake_status_500_counterexample :
  status_code (Stub.reply 500 (JDict [("version", JStr "1.7.2")])) <> 200 /\
  fst (connect true (serving (Stub.reply 500 (JDict [("version", JStr "1.7.2")])))
         "http://127.0.0.1:5000" false 5 true Stub.fresh)
  = Returned Stub.conn.
Proof.
  split; [discriminate | reflexivity].
Qed.

(** Scenario 2 of the spec: one descriptor, one handle. *)
Lemma get_scans_listing_witness :
  fst (scans true
         (serving (Stub.reply 200
            (JDict [("items", JList [JDict [("id", JInt 1); ("status", JStr "Running")]])])))
         Stub.conn Stub.fresh)
  = Returned [ {| scan_conn := Stub.conn; scan_id := JInt 1;
                  scan_status := JStr "Running" |} ].
Proof.
  destruct (get_scans_listing true Stub.ISSUE_URL Stub.urljoin Stub.json_dumps
              (serving (Stub.reply 200
                 (JDict [("items",
                          JList [JDict [("id", JInt 1); ("status", JStr "Running")]])])))
              Stub.conn Stub.fresh
              (Stub.reply 200
                 (JDict [("items",
                          JList [JDict [("id", JInt 1); ("status", JStr "Running")]])])))
    as (H & _).
  - reflexivity.
  - apply (H [("items", JList [JDict [("id", JInt 1); ("status", JStr "Running")]])]
             [JDict [("id", JInt 1); ("status", JStr "Running")]]).
    + reflexivity.
    + reflexivity.
    + reflexivity.
    + constructor; [| constructor].
      exists [("id", JInt 1); ("status", JStr "Running")]. repeat split; reflexivity.
Defined.

(** C8 as stated fails for the mapped statuses: with 404 and a
    [message], what leaves [get_scans] is the NotFoundException of
    [send_request], not an APIException. *)
Lemma get_scans_status_404_counterexample :
  fst (scans true (serving (Stub.reply 404 (JDict [("message", JStr "Not found")])))
         Stub.conn Stub.fresh)
  = Raised (NotFoundException (JStr "Not found")) /\
  forall arg,
    fst (scans true (serving (Stub.reply 404 (JDict [("message", JStr "Not found")])))
           Stub.conn Stub.fresh)
    <> Raised (APIException arg).
Proof.
  split; [reflexivity |]. intros arg. vm_compute. discriminate.
Qed.

(** ** Runs for the facts beyond the claims *)

Local Abbreviation home := "http://127.0.0.1:5000".
Local Abbreviation running := (JDict [("id", JInt 1); ("status", JStr "Running")]).
Local Abbreviation not_found := (Stub.reply 404 (JDict [("message", JStr "Not found")])).
Local Abbreviation versioned := (Stub.reply 200 (JDict [("version", JStr "1.7.2")])).
Local Abbreviation ask remote self path jd m w :=
  (answer Stub.urljoin Stub.json_dumps remote self path jd m w).

Lemma send_request_issues_one_call_witness :
  calls (snd (send true (serving (Stub.reply 200 (JDict []))) Stub.conn "/scans/"
                (JDict [("target", JStr "http://t/")]) "POST" Stub.fresh))
  = [ {| verb := "POST"; url := "http://127.0.0.1:5000/scans/";
         data := Some (Stub.dumps (JDict [("target", JStr "http://t/")]));
         call_timeout := 5 |} ].
Proof.
  apply (send_request_issues_one_call true Stub.ISSUE_URL Stub.urljoin Stub.json_dumps
           (serving (Stub.reply 200 (JDict []))) Stub.conn "/scans/"
           (JDict [("target", JStr "http://t/")]) "POST" Stub.fresh
           (Stub.reply 200 (JDict []))).
  - red; auto.
  - reflexivity.
Defined.

Lemma Connection_init_issues_version_call_witness :
  calls (snd (connect true (serving not_found) home false 5 true Stub.fresh))
  = [ {| verb := "GET"; url := "http://127.0.0.1:5000/version"; data := None;
         call_timeout := 5 |} ].
Proof.
  apply (Connection_init_issues_version_call true Stub.ISSUE_URL Stub.VERSION
           Stub.urljoin Stub.json_dumps Stub.py_repr (serving not_found) home false 5
           true Stub.fresh not_found).
  reflexivity.
Defined.

Lemma send_request_returns_only_unmapped_witness :
  supported "GET" /\
  201 <> 400 /\ 201 <> 403 /\ 201 <> 404 /\
  exists response,
    ask (serving (Stub.reply 201 (JDict []))) Stub.conn "/scans/" JNull "GET" Stub.fresh
      = Returned response /\
    status_code response = 201 /\
    json_body response = Some (JDict []).
Proof.
  apply (send_request_returns_only_unmapped true Stub.ISSUE_URL Stub.urljoin
           Stub.json_dumps (serving (Stub.reply 201 (JDict []))) Stub.conn "/scans/"
           JNull "GET" Stub.fresh 201 (JDict [])).
  reflexivity.
Defined.

Lemma send_request_mapped_kind_origin_witness :
  (exists items,
     json_body not_found = Some (JDict items) /\
     dict_lookup "message" items = Some (JStr "Not found") /\
     JStr "Not found" <> JNull) /\
  (NotFoundException (JStr "Not found") = BadRequestException (JStr "Not found") ->
   status_code not_found = 400) /\
  (NotFoundException (JStr "Not found") = ForbiddenException (JStr "Not found") ->
   status_code not_found = 403) /\
  (NotFoundException (JStr "Not found") = NotFoundException (JStr "Not found") ->
   status_code not_found = 404).
Proof.
  apply (send_request_mapped_kind_origin true Stub.ISSUE_URL Stub.urljoin Stub.json_dumps
           (serving not_found) Stub.conn "/scans/7/" JNull "GET" Stub.fresh not_found
           (NotFoundException (JStr "Not found")) (JStr "Not found")).
  - red; auto.
  - reflexivity.
  - reflexivity.
  - auto.
Defined.

Lemma send_request_never_raises_others_witness :
  fst (send true (serving not_found) Stub.conn "/scans/7/" JNull "GET" Stub.fresh)
    <> Raised (ValueError "Not found") /\
  fst (send true (serving not_found) Stub.conn "/scans/7/" JNull "GET" Stub.fresh)
    <> Raised (TypeError "Not found") /\
  fst (send true (serving not_found) Stub.conn "/scans/7/" JNull "GET" Stub.fresh)
    <> Raised (KeyError "message") /\
  fst (send true (serving not_found) Stub.conn "/scans/7/" JNull "GET" Stub.fresh)
    <> Raised (RequestException "HTTPError" "Not found").
Proof.
  apply (send_request_never_raises_others true Stub.ISSUE_URL Stub.urljoin
           Stub.json_dumps (serving not_found) Stub.conn "/scans/7/" JNull "GET"
           Stub.fresh not_found (or_introl eq_refl) eq_refl
           "Not found" "message" "HTTPError").
Defined.

Lemma send_request_mapped_non_object_witness :
  fst (send true (serving (Stub.reply 404 (JList []))) Stub.conn "/scans/7/" JNull "GET"
         Stub.fresh)
  = Raised (AttributeError "'list' object has no attribute 'get'").
Proof.
  apply (send_request_mapped_non_object true Stub.ISSUE_URL Stub.urljoin Stub.json_dumps
           (serving (Stub.reply 404 (JList []))) Stub.conn "/scans/7/" JNull "GET"
           Stub.fresh (Stub.reply 404 (JList [])) (JList [])).
  - red; auto.
  - reflexivity.
  - reflexivity.
  - right; right; reflexivity.
  - discriminate.
Defined.

Lemma send_request_keeps_logging_setup_witness :
  emitted (snd (send true (serving versioned) Stub.conn "/version" JNull "GET" Stub.fresh))
  = emitted Stub.fresh.
Proof.
  apply (proj2 (send_request_keeps_logging_setup true Stub.ISSUE_URL Stub.urljoin
                  Stub.json_dumps (serving versioned) Stub.conn "/version" JNull "GET"
                  Stub.fresh)).
  discriminate.
Defined.

Lemma send_request_logs_decoded_responses_witness :
  emitted (snd (send true (serving not_found) Stub.conn "/scans/7/" JNull "GET"
                  Stub.chatty))
  = [ received_message Stub.json_dumps not_found (JDict [("message", JStr "Not found")]) ].
Proof.
  apply (proj1 (send_request_logs_decoded_responses true Stub.ISSUE_URL Stub.urljoin
                  Stub.json_dumps (serving not_found) Stub.conn "/scans/7/" JNull "GET"
                  Stub.chatty (or_introl eq_refl) eq_refl)
           not_found (JDict [("message", JStr "Not found")])).
  - reflexivity.
  - reflexivity.
Defined.

Lemma verbose_construction_repeats_lines_witness :
  emitted (snd (send true (serving versioned) Stub.conn "/version" JNull "GET"
                  (snd (connect true (serving versioned) home true 5 true Stub.chatty))))
  = (emitted (snd (connect true (serving versioned) home true 5 true Stub.chatty)) ++
     repeat (received_message Stub.json_dumps versioned
               (JDict [("version", JStr "1.7.2")])) 2)%list.
Proof.
  apply (verbose_construction_repeats_lines true Stub.ISSUE_URL Stub.VERSION Stub.urljoin
           Stub.json_dumps Stub.py_repr (serving versioned) home 5 true Stub.chatty
           Stub.conn "/version" JNull "GET" versioned (JDict [("version", JStr "1.7.2")])).
  - red; auto.
  - reflexivity.
  - reflexivity.
Defined.

Lemma Connection_init_reports_remote_message_witness :
  exists msg,
    fst (connect true (serving not_found) home false 5 true Stub.fresh)
      = Raised (APIException (JStr msg)) /\
    occurs_in "Not found" msg.
Proof.
  apply (Connection_init_reports_remote_message true Stub.ISSUE_URL Stub.VERSION
           Stub.urljoin Stub.json_dumps Stub.py_repr (serving not_found) home false 5
           true Stub.fresh not_found [("message", JStr "Not found")] "Not found").
  - reflexivity.
  - right; right; reflexivity.
  - reflexivity.
  - reflexivity.
Defined.

Lemma Connection_init_reports_non_json_witness :
  exists msg,
    fst (connect true (serving (Stub.garbage 502 "<html>502 Bad Gateway</html>")) home
           false 5 true Stub.fresh)
      = Raised (APIException (JStr msg)) /\
    occurs_in Stub.ISSUE_URL msg /\
    occurs_in "b'<html>502 Bad Gatewa'" msg.
Proof.
  apply (Connection_init_reports_non_json true Stub.ISSUE_URL Stub.VERSION Stub.urljoin
           Stub.json_dumps Stub.py_repr
           (serving (Stub.garbage 502 "<html>502 Bad Gateway</html>")) home false 5 true
           Stub.fresh (Stub.garbage 502 "<html>502 Bad Gateway</html>")).
  - reflexivity.
  - reflexivity.
Defined.

Lemma Connection_init_scalar_body_escapes_witness :
  fst (connect true (serving (Stub.reply 200 (JInt 5))) home false 5 true Stub.fresh)
  = Raised (TypeError "argument of type 'int' is not iterable").
Proof.
  apply (Connection_init_scalar_body_escapes true Stub.ISSUE_URL Stub.VERSION Stub.urljoin
           Stub.json_dumps Stub.py_repr (serving (Stub.reply 200 (JInt 5))) home false 5
           true Stub.fresh (Stub.reply 200 (JInt 5)) (JInt 5)).
  - reflexivity.
  - reflexivity.
  - discriminate.
  - discriminate.
  - discriminate.
  - intros H. exact H.
Defined.

Lemma Connection_init_in_on_strings_and_lists_witness :
  fst (connect true (serving (Stub.reply 200 (JStr "w3af version 1.7.2"))) home false 5
         true Stub.fresh)
  = Returned Stub.conn.
Proof.
  apply (proj1 (Connection_init_in_on_strings_and_lists true Stub.ISSUE_URL Stub.VERSION
                  Stub.urljoin Stub.json_dumps Stub.py_repr
                  (serving (Stub.reply 200 (JStr "w3af version 1.7.2"))) home false 5
                  true Stub.fresh (Stub.reply 200 (JStr "w3af version 1.7.2"))
                  eq_refl eq_refl)
           "w3af version 1.7.2" eq_refl).
  exists "w3af ", " 1.7.2". reflexivity.
Defined.

Lemma can_access_api_returns_only_true_witness :
  true = true /\
  exists response body,
    ask (serving versioned) Stub.conn "/version" JNull "GET" Stub.fresh
      = Returned response /\
    json_body response = Some body /\
    py_contains "version" body = Returned true.
Proof.
  apply (can_access_api_returns_only_true true Stub.ISSUE_URL Stub.urljoin
           Stub.json_dumps Stub.py_repr (serving versioned) Stub.conn Stub.fresh true).
  reflexivity.
Defined.

Lemma get_scans_handles_origin_witness :
  exists response fields items xs,
    ask (serving (Stub.reply 200 (JDict [("items", JList [running])])))
      Stub.conn "/scans/" JNull "GET" Stub.fresh = Returned response /\
    status_code response = 200 /\
    json_body response = Some (JDict fields) /\
    dict_lookup "items" fields = Some items /\
    items <> JNull /\
    py_iter items = Returned xs /\
    Forall2 (describes Stub.conn) xs
      [ {| scan_conn := Stub.conn; scan_id := JInt 1; scan_status := JStr "Running" |} ] /\
    Forall (fun h => scan_conn h = Stub.conn)
      [ {| scan_conn := Stub.conn; scan_id := JInt 1; scan_status := JStr "Running" |} ].
Proof.
  apply (get_scans_handles_origin true Stub.ISSUE_URL Stub.urljoin Stub.json_dumps
           (serving (Stub.reply 200 (JDict [("items", JList [running])])))
           Stub.conn Stub.fresh
           [ {| scan_conn := Stub.conn; scan_id := JInt 1;
                scan_status := JStr "Running" |} ]).
  reflexivity.
Defined.

Lemma get_scans_descriptor_missing_key_witness :
  fst (scans true
         (serving (Stub.reply 200
            (JDict [("items", JList [running; JDict [("status", JStr "Paused")]])])))
         Stub.conn Stub.fresh)
  = Raised (KeyError "id").
Proof.
  destruct (get_scans_descriptor_missing_key true Stub.ISSUE_URL Stub.urljoin
              Stub.json_dumps
              (serving (Stub.reply 200
                 (JDict [("items", JList [running; JDict [("status", JStr "Paused")]])])))
              Stub.conn Stub.fresh
              (Stub.reply 200
                 (JDict [("items", JList [running; JDict [("status", JStr "Paused")]])]))
              [("items", JList [running; JDict [("status", JStr "Paused")]])]
              [running]
              [ {| scan_conn := Stub.conn; scan_id := JInt 1;
                   scan_status := JStr "Running" |} ]
              [("status", JStr "Paused")] [])
    as (H & _).
  - reflexivity.
  - reflexivity.
  - reflexivity.
  - reflexivity.
  - constructor; [| constructor].
    exists [("id", JInt 1); ("status", JStr "Running")]. repeat split; reflexivity.
  - apply H. reflexivity.
Defined.

Lemma get_scans_null_items_witness :
  fst (scans true (serving (Stub.reply 200 (JDict [("items", JNull)]))) Stub.conn
         Stub.fresh)
  = Raised (APIException
              (JStr ("Failed to retrieve scans, no " ++ dq ++ "items" ++ dq ++ " in JSON."))).
Proof.
  apply (get_scans_null_items true Stub.ISSUE_URL Stub.urljoin Stub.json_dumps
           (serving (Stub.reply 200 (JDict [("items", JNull)]))) Stub.conn Stub.fresh
           (Stub.reply 200 (JDict [("items", JNull)])) [("items", JNull)]);
    reflexivity.
Defined.

Lemma get_scans_items_not_a_list_witness :
  exists text,
    fst (scans true (serving (Stub.reply 200 (JDict [("items", running)]))) Stub.conn
           Stub.fresh)
    = Raised (TypeError text).
Proof.
  apply (proj2 (get_scans_items_not_a_list true Stub.ISSUE_URL Stub.urljoin
                  Stub.json_dumps
                  (serving (Stub.reply 200 (JDict [("items", running)]))) Stub.conn
                  Stub.fresh (Stub.reply 200 (JDict [("items", running)]))
                  [("items", running)] running
                  eq_refl eq_refl eq_refl eq_refl
                  ltac:(discriminate) ltac:(discriminate)));
    discriminate.
Defined.

Lemma construction_then_listing_calls_witness :
  calls (snd (scans true (serving versioned) Stub.conn
                (snd (connect true (serving versioned) home false 5 true Stub.fresh))))
  = [ {| verb := "GET"; url := "http://127.0.0.1:5000/version"; data := None;
         call_timeout := 5 |};
      {| verb := "GET"; url := "http://127.0.0.1:5000/scans/"; data := None;
         call_timeout := 5 |} ].
Proof.
  apply (construction_then_listing_calls true Stub.ISSUE_URL Stub.VERSION Stub.urljoin
           Stub.json_dumps Stub.py_repr (serving versioned) home false 5 true Stub.fresh
           Stub.conn).
  reflexivity.
Defined.

Lemma send_request_not_json_message_bounded_witness :
  exists msg,
    fst (send true (serving (Stub.garbage 200 "<html>502 Bad Gateway</html>"))
           Stub.conn "/version" JNull "GET" Stub.fresh)
    = Raised (APIException (JStr msg)) /\
    (String.length msg <= String.length Stub.ISSUE_URL + 155 + 83)%nat.
Proof.
  apply (send_request_not_json_message_bounded true Stub.ISSUE_URL Stub.urljoin
           Stub.json_dumps
           (serving (Stub.garbage 200 "<html>502 Bad Gateway</html>"))
           Stub.conn "/version" JNull "GET" Stub.fresh
           (Stub.garbage 200 "<html>502 Bad Gateway</html>")).
  - red; auto.
  - reflexivity.
  - reflexivity.
Defined.
